(** * Hand-tracking recorder: the frame driver, the recording life cycle
      and the camera settings panel

    A shallow embedding of three components of the application:

    - [WebcamPreview] (src/components/WebcamPreview.tsx): the per-frame
      callback [handleFrameProcessed] and the asynchronous functions
      [startRecording] and [stopRecording];
    - [CameraSettings] (the camera settings accordion item): the
      number-of-hands effect, the change handlers of the camera settings
      and [generateFrameRates], then the rest of the panel: the flags that
      disable its controls, the switches of the automatic modes, the two
      dropdowns and the effect on the video track;
    - [Webcam] (src/app/webcam.tsx): the tracking loop.

    An [async] function is a computation in the monad [Task.M]: it threads
    the component's state, records the calls it makes on its collaborators
    in a trace, each marked as awaited or left detached, and ends fulfilled
    or rejected.  What a collaborator answers (the server, the encoder, the
    parent's callbacks) is an input of the run.  The callbacks attached to
    a detached promise are tasks of their own (named [..._settled]), run
    when that promise settles, at any point after the call. *)

From Stdlib Require Import QArith Qminmax Qround Lqa ZArith List Bool.
From stdpp Require Import gmap strings list.
Import ListNotations.

(** ** Asynchronous tasks *)

Module Task.

(** How a promise settles. *)
Inductive Settled (A : Type) : Type :=
| Fulfilled (a : A)
| Rejected (message : string).
Arguments Fulfilled {A} a.
Arguments Rejected {A} message.

Section Monad.
Context {St Ev : Type}.

Record Run (A : Type) : Type := mkRun {
  trace : list Ev;
  final : St;
  outcome : Settled A
}.
Arguments mkRun {A}.
Arguments trace {A}.
Arguments final {A}.
Arguments outcome {A}.

Definition M (A : Type) : Type := St -> Run A.

Definition ret {A} (a : A) : M A :=
  fun s => mkRun [] s (Fulfilled a).

(** [throw new Error(message)]: the promise of the function rejects. *)
Definition throw {A} (message : string) : M A :=
  fun s => mkRun [] s (Rejected message).

Definition bind {A B} (m : M A) (k : A -> M B) : M B :=
  fun s =>
    match m s with
    | mkRun t s' (Fulfilled a) =>
        match k a s' with
        | mkRun t' s'' o => mkRun (t ++ t') s'' o
        end
    | mkRun t s' (Rejected e) => mkRun t s' (Rejected e)
    end.

Definition emit (e : Ev) : M unit :=
  fun s => mkRun [e] s (Fulfilled tt).

Definition get : M St :=
  fun s => mkRun [] s (Fulfilled s).

Definition modify (f : St -> St) : M unit :=
  fun s => mkRun [] (f s) (Fulfilled tt).

(** The value (or the rejection) a settled promise resumes with. *)
Definition resume {A} (r : Settled A) : M A :=
  fun s => mkRun [] s r.
End Monad.

Arguments Run : clear implicits.
Arguments M : clear implicits.
Arguments mkRun {St Ev A}.
Arguments trace {St Ev A}.
Arguments final {St Ev A}.
Arguments outcome {St Ev A}.

Declare Scope task_scope.
Delimit Scope task_scope with task.
Notation "'let*' x ':=' m 'in' k" := (bind m (fun x => k))
  (at level 10, x name, m at level 200, k at level 200) : task_scope.
Notation "m ;; k" := (bind m (fun _ => k))
  (at level 100, k at level 200, right associativity) : task_scope.

End Task.

Import Task.
Local Open Scope task_scope.

(** ** The preview component *)

Module WebcamPreview.

(** *** Collaborators *)

Record VideoFrame := { frame_timestamp : Z }.
Record EncodedVideoChunk := { chunk_timestamp : Z; byteLength : Z }.
Record FileSystemDirectoryHandle := { dir_name : string }.
Record ConnectionSettings := { address : string; port : Z }.

(** The fields of the hand landmarker the component reads. *)
Record HandLandmarker := {
  initialized : bool;
  processingFrame : bool;
  processingVideo : bool;
  settingNumHands : bool
}.

(** The fields of the video processor the component reads. *)
Record VideoProcessor := {
  isProcessing : bool;
  recordedChunks : list EncodedVideoChunk;
  frameCount : Z;
  recordingStartTime : Z
}.

Definition clearRecordedChunks (vp : VideoProcessor) : VideoProcessor :=
  {| isProcessing := isProcessing vp;
     recordedChunks := [];
     frameCount := frameCount vp;
     recordingStartTime := recordingStartTime vp |}.

(** *** Props, state, calls *)

Record Props := {
  directoryHandle : option FileSystemDirectoryHandle;
  (** [onRecordingStop?]: how the promise it returns settles. *)
  onRecordingStop :
    option (list EncodedVideoChunk -> Z -> Settled unit);
  (** [onStartRecordingFailed?]: [true] when the parent passed one. *)
  onStartRecordingFailed : bool
}.

Record State := {
  recordingInProgress : bool;
  (** [useState<boolean>()]: [None] is [undefined]. *)
  recordingOnServer : option bool;
  (** [videoProcessorRef.current] *)
  vp : VideoProcessor
}.

Definition setRecordingInProgress (b : bool) (s : State) : State :=
  {| recordingInProgress := b;
     recordingOnServer := recordingOnServer s;
     vp := vp s |}.

Definition setRecordingOnServer (b : bool) (s : State) : State :=
  {| recordingInProgress := recordingInProgress s;
     recordingOnServer := Some b;
     vp := vp s |}.

Definition setVideoProcessor (p : VideoProcessor) (s : State) : State :=
  {| recordingInProgress := recordingInProgress s;
     recordingOnServer := recordingOnServer s;
     vp := p |}.

(** Calls that return a promise. *)
Inductive Call :=
| requests_getConnectionSettings
| requests_isRecording
| requests_setRecording (recording : bool)
| vp_startRecording (dir : FileSystemDirectoryHandle)
| vp_stopRecording
| call_onRecordingStop (videoChunks : list EncodedVideoChunk) (startTime : Z).

Inductive ToastStatus := warning | error.

Inductive Event :=
(** [await c]: the function is suspended until the promise settles. *)
| Await (c : Call)
(** [c.then(..).catch(..)]: the call is made, the function goes on. *)
| Detach (c : Call)
| Toast (status : ToastStatus) (title : string)
| SetRecordingInProgress (b : bool)
| SetRecordingOnServer (b : bool)
| OnStartRecordingFailed
| ConsoleLog (frames now start : Z)
| ConsoleError (message : string)
| ClearRecordedChunks.

(** What the collaborators answer during one run. *)
Record Env := {
  env_getConnectionSettings : Settled (option ConnectionSettings);
  (** [requests.isRecording()]: [None] is [undefined]. *)
  env_isRecording : Settled (option bool);
  (** The encoder once the promise of [startRecording] has settled. *)
  env_vp_startRecording :
    VideoProcessor -> FileSystemDirectoryHandle ->
    VideoProcessor * Settled unit;
  env_vp_stopRecording : VideoProcessor -> VideoProcessor * Settled unit;
  (** [Date.now()] *)
  env_now : Z
}.

Definition Task := Task.M State Event.

Definition await {A} (c : Call) (r : Settled A) : Task A :=
  emit (Await c) ;; resume r.

(** [await] on a method of the video processor: the processor is in the
    state the method left it in when the function resumes. *)
Definition awaitProcessor (c : Call) (r : VideoProcessor * Settled unit)
  : Task unit :=
  emit (Await c) ;; modify (setVideoProcessor (fst r)) ;; resume (snd r).

Definition do_setRecordingInProgress (b : bool) : Task unit :=
  emit (SetRecordingInProgress b) ;; modify (setRecordingInProgress b).

Definition do_setRecordingOnServer (b : bool) : Task unit :=
  emit (SetRecordingOnServer b) ;; modify (setRecordingOnServer b).

(** *** The frame callback *)

Inductive FrameAction :=
| ProcessFrame (frame : VideoFrame).

(** [handLandmarkerRef] is [handLandmarkerRef.current]; the result lists
    the calls made on the landmarker.  The frame is stored nowhere. *)
Definition handleFrameProcessed
    (handLandmarkerRef : option HandLandmarker) (frame : VideoFrame)
  : list FrameAction :=
  match handLandmarkerRef with
  | Some current =>
      if initialized current
         && negb (processingFrame current)
         && negb (processingVideo current)
      then [ProcessFrame frame]
      else []
  | None => []
  end.

(** *** Starting *)

Definition startRecording (props : Props) (env : Env) : Task unit :=
  let* s := get in
  if recordingInProgress s then throw "Recording already in progress"
  else
    match directoryHandle props with
    | None => throw "No directory selected"
    | Some dir =>
        (* lines 154-163, reached from every branch that does not return *)
        let startLocal : Task unit :=
          let* s := get in
          awaitProcessor (vp_startRecording dir)
            (env_vp_startRecording env (vp s) dir) ;;
          do_setRecordingInProgress true in
        let* connectionSettings :=
          await requests_getConnectionSettings
            (env_getConnectionSettings env) in
        match connectionSettings with
        | Some _ =>
            let* recordingStatus :=
              await requests_isRecording (env_isRecording env) in
            match recordingStatus with
            | None =>
                emit (Toast warning "Failed to get recording status") ;;
                (* connectionSettings = null *)
                startLocal
            | Some true =>
                emit (Toast error "Recording already in progress") ;;
                if onStartRecordingFailed props
                then emit OnStartRecordingFailed
                else ret tt
            | Some false =>
                emit (Detach (requests_setRecording true)) ;;
                startLocal
            end
        | None => startLocal
        end
    end.

(** The [then] and [catch] callbacks of [requests.setRecording(true)],
    run when that promise settles. *)
Definition setRecording_true_settled (r : Settled unit) : Task unit :=
  match r with
  | Fulfilled _ => do_setRecordingOnServer true
  | Rejected _ => emit (Toast error "Failed to start recording")
  end.

(** The error callback handed to the encoder by [startRecording]. *)
Definition onFatalError (props : Props) (e : string) : Task unit :=
  emit (ConsoleError e) ;;
  if onStartRecordingFailed props then emit OnStartRecordingFailed
  else ret tt.

(** *** Stopping *)

Definition stopRecording (props : Props) (env : Env) : Task unit :=
  let* s := get in
  if negb (recordingInProgress s) then throw "Recording not in progress"
  else
    match recordingOnServer s with
    | Some true =>
        do_setRecordingOnServer false ;;
        emit (Detach (requests_setRecording false))
    | _ => ret tt
    end ;;
    awaitProcessor vp_stopRecording (env_vp_stopRecording env (vp s)) ;;
    let* s := get in
    emit (ConsoleLog (frameCount (vp s)) (env_now env)
            (recordingStartTime (vp s))) ;;
    do_setRecordingInProgress false ;;
    match onRecordingStop props with
    | Some callback =>
        await (call_onRecordingStop (recordedChunks (vp s))
                 (recordingStartTime (vp s)))
          (callback (recordedChunks (vp s)) (recordingStartTime (vp s)))
    | None => ret tt
    end ;;
    emit ClearRecordedChunks ;;
    modify (fun s => setVideoProcessor (clearRecordedChunks (vp s)) s).

(** The [catch] callback of [requests.setRecording(false)]. *)
Definition setRecording_false_settled (r : Settled unit) : Task unit :=
  match r with
  | Fulfilled _ => ret tt
  | Rejected _ => emit (Toast error "Failed to stop recording")
  end.

(** *** Stopping, cut at the await of the encoder *)

(** [stopRecording] from its call to [await vp.stopRecording()] (lines
    171-190): the guard, the remote part and the call of the encoder.  The
    function is then suspended, the encoder's promise pending, and other
    code of the component runs on the state this part leaves. *)
Definition stopRecording_entered : Task unit :=
  let* s := get in
  if negb (recordingInProgress s) then throw "Recording not in progress"
  else
    match recordingOnServer s with
    | Some true =>
        do_setRecordingOnServer false ;;
        emit (Detach (requests_setRecording false))
    | _ => ret tt
    end ;;
    emit (Await vp_stopRecording).

(** The rest of [stopRecording] (lines 190-199), run when the encoder's
    promise has settled: [settled] is the encoder then and how the promise
    settled, [now] is [Date.now()]. *)
Definition stopRecording_resumed (props : Props) (now : Z)
    (settled : VideoProcessor * Settled unit) : Task unit :=
  modify (setVideoProcessor (fst settled)) ;;
  resume (snd settled) ;;
  let* s := get in
  emit (ConsoleLog (frameCount (vp s)) now (recordingStartTime (vp s))) ;;
  do_setRecordingInProgress false ;;
  match onRecordingStop props with
  | Some callback =>
      await (call_onRecordingStop (recordedChunks (vp s))
               (recordingStartTime (vp s)))
        (callback (recordedChunks (vp s)) (recordingStartTime (vp s)))
  | None => ret tt
  end ;;
  emit ClearRecordedChunks ;;
  modify (fun s => setVideoProcessor (clearRecordedChunks (vp s)) s).

(** *** The landmarker's calls and the frames that reach it *)

Definition set_initialized (b : bool) (h : HandLandmarker) :=
  {| initialized := b;
     processingFrame := processingFrame h;
     processingVideo := processingVideo h;
     settingNumHands := settingNumHands h |}.

Definition set_processingFrame (b : bool) (h : HandLandmarker) :=
  {| initialized := initialized h;
     processingFrame := b;
     processingVideo := processingVideo h;
     settingNumHands := settingNumHands h |}.

Definition set_processingVideo (b : bool) (h : HandLandmarker) :=
  {| initialized := initialized h;
     processingFrame := processingFrame h;
     processingVideo := b;
     settingNumHands := settingNumHands h |}.

(** Modelled from the spec: the class [HandLandmarker]
    (app/handLandmarker/handLandmarker) is not among the sources.
    Section 4.2: [processingFrame] says that an inference call is
    currently outstanding, and is reset on every exit path of the call. *)
Definition processFrame (h : HandLandmarker) : HandLandmarker :=
  set_processingFrame true h.

Definition processFrame_settled (h : HandLandmarker) : HandLandmarker :=
  set_processingFrame false h.

(** Modelled from the spec: the bulk reprocessing of a finished recording
    is not among the sources either.  Sections 2 and 4.2: the scheduler
    allows one whole-clip call at a time, guarded by [processingVideo],
    and the mode is mutually exclusive with live inference; a request
    made while the landmarker is not free is refused ([None]). *)
Definition processVideo (h : HandLandmarker) : option HandLandmarker :=
  if initialized h && negb (processingFrame h) && negb (processingVideo h)
  then Some (set_processingVideo true h)
  else None.

Definition processVideo_settled (h : HandLandmarker) : HandLandmarker :=
  set_processingVideo false h.

Definition newHandLandmarker : HandLandmarker :=
  {| initialized := false;
     processingFrame := false;
     processingVideo := false;
     settingNumHands := false |}.

(** The landmarker behind [handLandmarkerRef] with the calls that are
    outstanding on it: [frameCalls] live inference calls and [videoCalls]
    bulk reprocessing calls whose promise has not settled. *)
Record Pipeline := {
  handLandmarkerRef : option HandLandmarker;
  frameCalls : nat;
  videoCalls : nat
}.

Inductive Arrival :=
| LandmarkerCreated
| LandmarkerInitialized
(** the video processor delivers a frame to [handleFrameProcessed] *)
| FrameArrives (frame : VideoFrame)
| FrameCallSettles
| VideoRequested
| VideoCallSettles.

Definition perform (p : Pipeline) (a : FrameAction) : Pipeline :=
  match a with
  | ProcessFrame _ =>
      {| handLandmarkerRef := processFrame <$> handLandmarkerRef p;
         frameCalls := S (frameCalls p);
         videoCalls := videoCalls p |}
  end.

Definition arrive (p : Pipeline) (a : Arrival) : Pipeline :=
  match a with
  | LandmarkerCreated =>
      match handLandmarkerRef p with
      | None =>
          {| handLandmarkerRef := Some newHandLandmarker;
             frameCalls := frameCalls p;
             videoCalls := videoCalls p |}
      | Some _ => p
      end
  | LandmarkerInitialized =>
      {| handLandmarkerRef := set_initialized true <$> handLandmarkerRef p;
         frameCalls := frameCalls p;
         videoCalls := videoCalls p |}
  | FrameArrives frame =>
      fold_left perform (handleFrameProcessed (handLandmarkerRef p) frame) p
  | FrameCallSettles =>
      match frameCalls p with
      | O => p
      | S n =>
          {| handLandmarkerRef :=
               processFrame_settled <$> handLandmarkerRef p;
             frameCalls := n;
             videoCalls := videoCalls p |}
      end
  | VideoRequested =>
      match handLandmarkerRef p ≫= processVideo with
      | Some h =>
          {| handLandmarkerRef := Some h;
             frameCalls := frameCalls p;
             videoCalls := S (videoCalls p) |}
      | None => p
      end
  | VideoCallSettles =>
      match videoCalls p with
      | O => p
      | S n =>
          {| handLandmarkerRef :=
               processVideo_settled <$> handLandmarkerRef p;
             frameCalls := frameCalls p;
             videoCalls := n |}
      end
  end.

Definition mounted : Pipeline :=
  {| handLandmarkerRef := None; frameCalls := 0; videoCalls := 0 |}.

Definition arrivals (l : list Arrival) : Pipeline :=
  fold_left arrive l mounted.

(** *** The effect that follows [isRecording] *)

(** The effect of lines 205-211, run with the prop [isRecording].  It does
    not await the function it calls: the run is the one of the task that
    call starts. *)
Definition recordingEffect (props : Props) (env : Env) (isRecording : bool)
  : Task unit :=
  let* s := get in
  if isRecording && negb (recordingInProgress s)
  then startRecording props env
  else if negb isRecording && recordingInProgress s
  then stopRecording props env
  else ret tt.

(** The same effect run with [isRecording] [false], followed as far as the
    await of the encoder in the stop it calls: what has happened when the
    component renders next. *)
Definition recordingEffect_stop_entered : Task unit :=
  let* s := get in
  if negb false && recordingInProgress s then stopRecording_entered
  else ret tt.

End WebcamPreview.

(** ** The camera settings panel *)

Module CameraCapabilities.
Definition ExposureMode : string := "exposureMode".
Definition ExposureTime : string := "exposureTime".
Definition ExposureCompensation : string := "exposureCompensation".
Definition FocusMode : string := "focusMode".
Definition FocusDistance : string := "focusDistance".
Definition WhiteBalanceMode : string := "whiteBalanceMode".
Definition WhiteBalanceTemperature : string := "colorTemperature".
Definition Brightness : string := "brightness".
Definition Contrast : string := "contrast".
Definition Saturation : string := "saturation".
Definition Sharpness : string := "sharpness".
End CameraCapabilities.

Module CameraSettings.
Import WebcamPreview.

(** *** The video track *)

Record Range := { range_min : Q; range_max : Q; range_step : Q }.

(** A [MediaStreamTrack]: the capabilities it reports, as the object
    [getCapabilities()] returns (a key is [in] it when it is bound), and
    the [advanced] constraints applied to it, oldest first. *)
Record MediaStreamTrack := {
  getCapabilities : gmap string Range;
  advanced : list (string * Q)
}.

(** [track.applyConstraints({ advanced: [{ [key]: value }] })] *)
Definition applyConstraints (key : string) (value : Q)
    (track : MediaStreamTrack) : MediaStreamTrack :=
  {| getCapabilities := getCapabilities track;
     advanced := advanced track ++ [(key, value)] |}.

(** *** State *)

Record State := {
  trackTwoHands : bool;
  settingNumHands : bool;
  exposureTime : Q;
  exposureCompensation : Q;
  focusDistance : Q;
  whiteBalance : Q;
  brightness : Q;
  contrast : Q;
  saturation : Q;
  sharpness : Q
}.

Definition setTrackTwoHands (v : bool) (s : State) : State :=
  {| trackTwoHands := v; settingNumHands := settingNumHands s;
     exposureTime := exposureTime s;
     exposureCompensation := exposureCompensation s;
     focusDistance := focusDistance s; whiteBalance := whiteBalance s;
     brightness := brightness s; contrast := contrast s;
     saturation := saturation s; sharpness := sharpness s |}.

Definition setSettingNumHands (v : bool) (s : State) : State :=
  {| trackTwoHands := trackTwoHands s; settingNumHands := v;
     exposureTime := exposureTime s;
     exposureCompensation := exposureCompensation s;
     focusDistance := focusDistance s; whiteBalance := whiteBalance s;
     brightness := brightness s; contrast := contrast s;
     saturation := saturation s; sharpness := sharpness s |}.

Definition setExposureTime (v : Q) (s : State) : State :=
  {| trackTwoHands := trackTwoHands s; settingNumHands := settingNumHands s;
     exposureTime := v;
     exposureCompensation := exposureCompensation s;
     focusDistance := focusDistance s; whiteBalance := whiteBalance s;
     brightness := brightness s; contrast := contrast s;
     saturation := saturation s; sharpness := sharpness s |}.

(** The setter keeps the source's spelling. *)
Definition setExposureConmensation (v : Q) (s : State) : State :=
  {| trackTwoHands := trackTwoHands s; settingNumHands := settingNumHands s;
     exposureTime := exposureTime s;
     exposureCompensation := v;
     focusDistance := focusDistance s; whiteBalance := whiteBalance s;
     brightness := brightness s; contrast := contrast s;
     saturation := saturation s; sharpness := sharpness s |}.

Definition setFocusDistance (v : Q) (s : State) : State :=
  {| trackTwoHands := trackTwoHands s; settingNumHands := settingNumHands s;
     exposureTime := exposureTime s;
     exposureCompensation := exposureCompensation s;
     focusDistance := v; whiteBalance := whiteBalance s;
     brightness := brightness s; contrast := contrast s;
     saturation := saturation s; sharpness := sharpness s |}.

Definition setWhiteBalance (v : Q) (s : State) : State :=
  {| trackTwoHands := trackTwoHands s; settingNumHands := settingNumHands s;
     exposureTime := exposureTime s;
     exposureCompensation := exposureCompensation s;
     focusDistance := focusDistance s; whiteBalance := v;
     brightness := brightness s; contrast := contrast s;
     saturation := saturation s; sharpness := sharpness s |}.

Definition setBrightness (v : Q) (s : State) : State :=
  {| trackTwoHands := trackTwoHands s; settingNumHands := settingNumHands s;
     exposureTime := exposureTime s;
     exposureCompensation := exposureCompensation s;
     focusDistance := focusDistance s; whiteBalance := whiteBalance s;
     brightness := v; contrast := contrast s;
     saturation := saturation s; sharpness := sharpness s |}.

Definition setContrast (v : Q) (s : State) : State :=
  {| trackTwoHands := trackTwoHands s; settingNumHands := settingNumHands s;
     exposureTime := exposureTime s;
     exposureCompensation := exposureCompensation s;
     focusDistance := focusDistance s; whiteBalance := whiteBalance s;
     brightness := brightness s; contrast := v;
     saturation := saturation s; sharpness := sharpness s |}.

Definition setSaturation (v : Q) (s : State) : State :=
  {| trackTwoHands := trackTwoHands s; settingNumHands := settingNumHands s;
     exposureTime := exposureTime s;
     exposureCompensation := exposureCompensation s;
     focusDistance := focusDistance s; whiteBalance := whiteBalance s;
     brightness := brightness s; contrast := contrast s;
     saturation := v; sharpness := sharpness s |}.

Definition setSharpness (v : Q) (s : State) : State :=
  {| trackTwoHands := trackTwoHands s; settingNumHands := settingNumHands s;
     exposureTime := exposureTime s;
     exposureCompensation := exposureCompensation s;
     focusDistance := focusDistance s; whiteBalance := whiteBalance s;
     brightness := brightness s; contrast := contrast s;
     saturation := saturation s; sharpness := v |}.

(** The component: its state and the [videoTrack] prop, whose object the
    handlers act on. *)
Record Component := {
  state : State;
  videoTrack : option MediaStreamTrack
}.

Definition setState (f : State -> State) (c : Component) : Component :=
  {| state := f (state c); videoTrack := videoTrack c |}.

(** The block every change handler ends with:
    [const capabilities = videoTrack?.getCapabilities();
     if (capabilities && key in capabilities)
       videoTrack!.applyConstraints({ advanced: [{ [key]: value }] })] *)
Definition constrain (key : string) (value : Q) (c : Component)
  : Component :=
  match videoTrack c with
  | Some track =>
      let capabilities := getCapabilities track in
      if decide (is_Some (capabilities !! key))
      then {| state := state c;
              videoTrack := Some (applyConstraints key value track) |}
      else c
  | None => c
  end.

(** *** Change handlers *)

Definition handleTrackTwoHandsChange
    (handLandmarker : option HandLandmarker) (trackTwoHands : bool)
    (s : State) : State :=
  match handLandmarker with
  | None => s
  | Some h =>
      if WebcamPreview.settingNumHands h then s
      else setTrackTwoHands trackTwoHands s
  end.

Definition handleExposureTimeChange (exposureTime : Q) (c : Component) :=
  constrain CameraCapabilities.ExposureTime exposureTime
    (setState (setExposureTime exposureTime) c).

Definition handleExposureCompensationChange (exposureCompensation : Q)
    (c : Component) :=
  constrain CameraCapabilities.ExposureCompensation exposureCompensation
    (setState (setExposureConmensation exposureCompensation) c).

Definition handleFocusDistanceChange (focusDistance : Q) (c : Component) :=
  constrain CameraCapabilities.FocusDistance focusDistance
    (setState (setFocusDistance focusDistance) c).

Definition handleWhiteBalanceChange (whiteBalance : Q) (c : Component) :=
  constrain CameraCapabilities.WhiteBalanceTemperature whiteBalance
    (setState (setWhiteBalance whiteBalance) c).

Definition handleBrightnessChange (brightness : Q) (c : Component) :=
  constrain CameraCapabilities.Brightness brightness
    (setState (setBrightness brightness) c).

Definition handleContrastChange (contrast : Q) (c : Component) :=
  constrain CameraCapabilities.Contrast contrast
    (setState (setContrast contrast) c).

Definition handleSaturationChange (saturation : Q) (c : Component) :=
  constrain CameraCapabilities.Saturation saturation
    (setState (setSaturation saturation) c).

Definition handleSharpnessChange (sharpness : Q) (c : Component) :=
  constrain CameraCapabilities.Sharpness sharpness
    (setState (setSharpness sharpness) c).

(** *** The number-of-hands effect *)

Inductive Event :=
| SetSettingNumHands (b : bool)
(** [handLandmarker.waitForInitialization()], with callbacks attached *)
| WaitForInitialization
| SetNumHands (n : Z)
| ConsoleError (message : string).

Definition Task := Task.M State Event.

Definition do_setSettingNumHands (b : bool) : Task unit :=
  emit (SetSettingNumHands b) ;; modify (setSettingNumHands b).

(** The body of the effect: it returns once the chain is set up. *)
Definition numHandsEffect (handLandmarker : option HandLandmarker)
  : Task unit :=
  match handLandmarker with
  | None => ret tt
  | Some _ => do_setSettingNumHands true ;; emit WaitForInitialization
  end.

(** The [then], [catch] and [finally] callbacks of the chain, run when
    the promise of [waitForInitialization] settles as [r];
    [handLandmarker] is the landmarker as it is at that moment and
    [trackTwoHands] the value the effect ran with. *)
Definition numHandsEffect_settled (handLandmarker : HandLandmarker)
    (trackTwoHands : bool) (r : Settled unit) : Task unit :=
  match r with
  | Fulfilled _ =>
      if WebcamPreview.settingNumHands handLandmarker then ret tt
      else emit (SetNumHands (if trackTwoHands then 2 else 1))
  | Rejected e => emit (ConsoleError e)
  end ;;
  do_setSettingNumHands false.

(** *** Frame rates *)

Definition Qltb (x y : Q) : bool := negb (Qle_bool y x).

(** [frameRates[frameRates.length - 1]]; the list is never empty here. *)
Definition lastFrameRate (frameRates : list Q) : Q :=
  default 0%Q (last frameRates).

(** The [while] loop of [generateFrameRates], run for at most [fuel]
    iterations: [None] when the loop has not ended by then. *)
Fixpoint generateFrameRates_loop (fuel : nat) (maxFrameRate : Q)
    (frameRates : list Q) : option (list Q) :=
  if Qltb (lastFrameRate frameRates) maxFrameRate then
    match fuel with
    | O => None
    | S fuel' =>
        generateFrameRates_loop fuel' maxFrameRate
          (frameRates
             ++ [Qmin (lastFrameRate frameRates + 30) maxFrameRate])
    end
  else Some frameRates.

(** A bound on the number of iterations: the rate grows by 30 each time. *)
Definition iterations (maxFrameRate : Q) : nat :=
  Z.to_nat (Qceiling (maxFrameRate / 30)).

Definition generateFrameRates (maxFrameRate : Q) : option (list Q) :=
  generateFrameRates_loop (iterations maxFrameRate) maxFrameRate [30%Q].

(** *** The settings with a change handler of this shape *)

Inductive Setting :=
| ExposureTime
| ExposureCompensation
| FocusDistance
| WhiteBalanceTemperature
| Brightness
| Contrast
| Saturation
| Sharpness.

Definition capabilityOf (x : Setting) : string :=
  match x with
  | ExposureTime => CameraCapabilities.ExposureTime
  | ExposureCompensation => CameraCapabilities.ExposureCompensation
  | FocusDistance => CameraCapabilities.FocusDistance
  | WhiteBalanceTemperature => CameraCapabilities.WhiteBalanceTemperature
  | Brightness => CameraCapabilities.Brightness
  | Contrast => CameraCapabilities.Contrast
  | Saturation => CameraCapabilities.Saturation
  | Sharpness => CameraCapabilities.Sharpness
  end.

Definition handlerOf (x : Setting) : Q -> Component -> Component :=
  match x with
  | ExposureTime => handleExposureTimeChange
  | ExposureCompensation => handleExposureCompensationChange
  | FocusDistance => handleFocusDistanceChange
  | WhiteBalanceTemperature => handleWhiteBalanceChange
  | Brightness => handleBrightnessChange
  | Contrast => handleContrastChange
  | Saturation => handleSaturationChange
  | Sharpness => handleSharpnessChange
  end.

Definition valueOf (x : Setting) (s : State) : Q :=
  match x with
  | ExposureTime => exposureTime s
  | ExposureCompensation => exposureCompensation s
  | FocusDistance => focusDistance s
  | WhiteBalanceTemperature => whiteBalance s
  | Brightness => brightness s
  | Contrast => contrast s
  | Saturation => saturation s
  | Sharpness => sharpness s
  end.

(** *** Which controls are disabled *)

(** [videoTrackCapabilities] is the state variable of that name: [None] is
    [null], and it holds what [getCapabilities()] returned when the effect
    on [videoTrack] last ran with a track. *)
Definition unsupported (videoTrack : option MediaStreamTrack)
    (videoTrackCapabilities : option (gmap string Range)) (key : string)
  : bool :=
  match videoTrack, videoTrackCapabilities with
  | Some _, Some capabilities =>
      negb (bool_decide (is_Some (capabilities !! key)))
  | _, _ => true
  end.

Definition isTrackTwoHandsDisabled (handLandmarker : option HandLandmarker)
    (settingNumHands : bool) : bool :=
  negb (bool_decide (is_Some handLandmarker)) || settingNumHands.

Definition isAutoexposureDisabled videoTrack videoTrackCapabilities : bool :=
  unsupported videoTrack videoTrackCapabilities
    CameraCapabilities.ExposureMode.

Definition isExposureTimeDisabled videoTrack videoTrackCapabilities
    (autoexposure : bool) : bool :=
  unsupported videoTrack videoTrackCapabilities
    CameraCapabilities.ExposureTime
  || autoexposure.

Definition isExposureCompensationDisabled videoTrack videoTrackCapabilities
    (autoexposure : bool) : bool :=
  unsupported videoTrack videoTrackCapabilities
    CameraCapabilities.ExposureCompensation
  || negb autoexposure.

Definition isAutofocusDisabled videoTrack videoTrackCapabilities : bool :=
  unsupported videoTrack videoTrackCapabilities CameraCapabilities.FocusMode.

Definition isFocusDistanceDisabled videoTrack videoTrackCapabilities
    (autofocus : bool) : bool :=
  unsupported videoTrack videoTrackCapabilities
    CameraCapabilities.FocusDistance
  || autofocus.

Definition isAutoWhiteBalanceDisabled videoTrack videoTrackCapabilities
  : bool :=
  unsupported videoTrack videoTrackCapabilities
    CameraCapabilities.WhiteBalanceMode.

Definition isWhiteBalanceDisabled videoTrack videoTrackCapabilities
    (autoWhiteBalance : bool) : bool :=
  unsupported videoTrack videoTrackCapabilities
    CameraCapabilities.WhiteBalanceTemperature
  || autoWhiteBalance.

Definition isResolutionDisabled (videoTrack : option MediaStreamTrack)
    (videoTrackCapabilities : option (gmap string Range)) : bool :=
  negb (bool_decide (is_Some videoTrack))
  || negb (bool_decide (is_Some videoTrackCapabilities)).

Definition isFrameRateDisabled (videoTrack : option MediaStreamTrack)
    (videoTrackCapabilities : option (gmap string Range)) : bool :=
  negb (bool_decide (is_Some videoTrack))
  || negb (bool_decide (is_Some videoTrackCapabilities)).

Definition isBrightnessDisabled videoTrack videoTrackCapabilities : bool :=
  unsupported videoTrack videoTrackCapabilities CameraCapabilities.Brightness.

Definition isContrastDisabled videoTrack videoTrackCapabilities : bool :=
  unsupported videoTrack videoTrackCapabilities CameraCapabilities.Contrast.

Definition isSaturationDisabled videoTrack videoTrackCapabilities : bool :=
  unsupported videoTrack videoTrackCapabilities CameraCapabilities.Saturation.

Definition isSharpnessDisabled videoTrack videoTrackCapabilities : bool :=
  unsupported videoTrack videoTrackCapabilities CameraCapabilities.Sharpness.

(** The [isDisabled] of the category named Other; [isDisabled] is the prop
    of the component. *)
Definition isOtherDisabled (isDisabled : bool) videoTrack
    videoTrackCapabilities : bool :=
  isDisabled
  || (isBrightnessDisabled videoTrack videoTrackCapabilities
      && isContrastDisabled videoTrack videoTrackCapabilities
      && isSaturationDisabled videoTrack videoTrackCapabilities
      && isSharpnessDisabled videoTrack videoTrackCapabilities).

(** The flag of the slider of each setting, before the [|| isDisabled] of
    the element. *)
Definition isSliderDisabled (x : Setting) videoTrack videoTrackCapabilities
    (autoexposure autofocus autoWhiteBalance : bool) : bool :=
  match x with
  | ExposureTime =>
      isExposureTimeDisabled videoTrack videoTrackCapabilities autoexposure
  | ExposureCompensation =>
      isExposureCompensationDisabled videoTrack videoTrackCapabilities
        autoexposure
  | FocusDistance =>
      isFocusDistanceDisabled videoTrack videoTrackCapabilities autofocus
  | WhiteBalanceTemperature =>
      isWhiteBalanceDisabled videoTrack videoTrackCapabilities
        autoWhiteBalance
  | Brightness => isBrightnessDisabled videoTrack videoTrackCapabilities
  | Contrast => isContrastDisabled videoTrack videoTrackCapabilities
  | Saturation => isSaturationDisabled videoTrack videoTrackCapabilities
  | Sharpness => isSharpnessDisabled videoTrack videoTrackCapabilities
  end.

(** *** Resolutions *)

Record Resolution := { width : Q; height : Q }.

(** [RESOLUTIONS] (app/utils/resolution) is taken as an argument.  [None]
    is the [TypeError] of reading [max] of a missing [width] or [height]. *)
Definition generateResolutions (RESOLUTIONS : list Resolution)
    (videoTrackCapabilities : gmap string Range)
  : option (list Resolution) :=
  match videoTrackCapabilities !! "width",
        videoTrackCapabilities !! "height" with
  | Some w, Some h =>
      let maxWidth := range_max w in
      let maxHeight := range_max h in
      Some (List.filter
              (fun resolution =>
                 Qle_bool (width resolution) maxWidth
                 && Qle_bool (height resolution) maxHeight)
              RESOLUTIONS)
  | _, _ => None
  end.

(** *** Several changes in a row *)

#[global] Instance Setting_eq_dec : EqDecision Setting.
Proof. solve_decision. Defined.

Definition change (c : Component) (xv : Setting * Q) : Component :=
  handlerOf (fst xv) (snd xv) c.

Definition changes (l : list (Setting * Q)) (c : Component) : Component :=
  fold_left change l c.

(** *** The whole panel *)

(** The constraints applied to the video track besides the numeric
    [advanced] ones. *)
Inductive Constraint :=
(** [{ advanced: [{ [key]: mode }] }] *)
| AdvancedMode (key mode : string)
(** [{ width, height }] *)
| Size (width height : Q)
(** [{ frameRate }] *)
| FrameRate (frameRate : Q).

(** What [getSettings()] returns: the mode settings are strings, the
    others numbers. *)
Record MediaTrackSettings := {
  numbers : gmap string Q;
  modes : gmap string string
}.

(** The component with the rest of its state; [applied] lists the
    constraints of type [Constraint] applied to the video track, oldest
    first. *)
Record Panel := {
  component : Component;
  videoTrackCapabilities : option (gmap string Range);
  autoexposure : bool;
  autofocus : bool;
  autoWhiteBalance : bool;
  resolution : Resolution;
  frameRate : Q;
  applied : list Constraint
}.

Definition setComponent (f : Component -> Component) (p : Panel) : Panel :=
  {| component := f (component p);
     videoTrackCapabilities := videoTrackCapabilities p;
     autoexposure := autoexposure p; autofocus := autofocus p;
     autoWhiteBalance := autoWhiteBalance p;
     resolution := resolution p; frameRate := frameRate p;
     applied := applied p |}.

Definition setVideoTrackCapabilities (v : option (gmap string Range))
    (p : Panel) : Panel :=
  {| component := component p;
     videoTrackCapabilities := v;
     autoexposure := autoexposure p; autofocus := autofocus p;
     autoWhiteBalance := autoWhiteBalance p;
     resolution := resolution p; frameRate := frameRate p;
     applied := applied p |}.

Definition setAutoexposure (v : bool) (p : Panel) : Panel :=
  {| component := component p;
     videoTrackCapabilities := videoTrackCapabilities p;
     autoexposure := v; autofocus := autofocus p;
     autoWhiteBalance := autoWhiteBalance p;
     resolution := resolution p; frameRate := frameRate p;
     applied := applied p |}.

Definition setAutofocus (v : bool) (p : Panel) : Panel :=
  {| component := component p;
     videoTrackCapabilities := videoTrackCapabilities p;
     autoexposure := autoexposure p; autofocus := v;
     autoWhiteBalance := autoWhiteBalance p;
     resolution := resolution p; frameRate := frameRate p;
     applied := applied p |}.

Definition setAutoWhiteBalance (v : bool) (p : Panel) : Panel :=
  {| component := component p;
     videoTrackCapabilities := videoTrackCapabilities p;
     autoexposure := autoexposure p; autofocus := autofocus p;
     autoWhiteBalance := v;
     resolution := resolution p; frameRate := frameRate p;
     applied := applied p |}.

Definition setResolution (v : Resolution) (p : Panel) : Panel :=
  {| component := component p;
     videoTrackCapabilities := videoTrackCapabilities p;
     autoexposure := autoexposure p; autofocus := autofocus p;
     autoWhiteBalance := autoWhiteBalance p;
     resolution := v; frameRate := frameRate p;
     applied := applied p |}.

Definition setFrameRate (v : Q) (p : Panel) : Panel :=
  {| component := component p;
     videoTrackCapabilities := videoTrackCapabilities p;
     autoexposure := autoexposure p; autofocus := autofocus p;
     autoWhiteBalance := autoWhiteBalance p;
     resolution := resolution p; frameRate := v;
     applied := applied p |}.

Definition applyToTrack (c : Constraint) (p : Panel) : Panel :=
  {| component := component p;
     videoTrackCapabilities := videoTrackCapabilities p;
     autoexposure := autoexposure p; autofocus := autofocus p;
     autoWhiteBalance := autoWhiteBalance p;
     resolution := resolution p; frameRate := frameRate p;
     applied := applied p ++ [c] |}.

Inductive PanelEvent :=
| ConsoleLog (width height : option Q)
| OnResolutionChange (resolution : Resolution).

Definition PanelTask := Task.M Panel PanelEvent.

(** *** The switches of the automatic modes *)

(** A call [videoTrack.applyConstraints({ advanced: [{ [key]: .. }] })]
    with what it passes for the key: a mode or a number. *)
Inductive TrackCall :=
| ApplyMode (key mode : string)
| ApplyNumber (key : string) (value : Q).

(** The handler of an automatic mode makes several calls on the one track:
    its run records them in its trace, in the order they are made. *)
Definition ModeTask := Task.M Panel TrackCall.

(** [if (capabilities && key in capabilities)
       videoTrack!.applyConstraints({ advanced: [{ [key]: mode }] })] *)
Definition constrainMode (key mode : string) : ModeTask unit :=
  let* p := get in
  match videoTrack (component p) with
  | Some track =>
      if decide (is_Some (getCapabilities track !! key))
      then emit (ApplyMode key mode) ;;
           modify (applyToTrack (AdvancedMode key mode))
      else ret tt
  | None => ret tt
  end.

Definition modeOf (auto : bool) : string :=
  if auto then "continuous" else "manual".

(** The constraints the track [after] holds beyond those of [before]. *)
Definition added (before after : option MediaStreamTrack)
  : list (string * Q) :=
  match before, after with
  | Some b, Some a => drop (length (advanced b)) (advanced a)
  | _, _ => []
  end.

(** A change handler of a slider, called by the handler of a mode: the
    calls it makes on the track are the constraints it adds to it. *)
Definition callHandler (handler : Component -> Component) : ModeTask unit :=
  let* p := get in
  let called :=
    added (videoTrack (component p)) (videoTrack (handler (component p))) in
  modify (setComponent handler) ;;
  fold_right (fun kv rest => emit (ApplyNumber (fst kv) (snd kv)) ;; rest)
    (ret tt) called.

(** In the three handlers, [p] is the state of the render the handler
    closes over. *)
Definition handleAutoexposureChange (autoexposure : bool) : ModeTask unit :=
  let* p := get in
  modify (setAutoexposure autoexposure) ;;
  constrainMode CameraCapabilities.ExposureMode (modeOf autoexposure) ;;
  callHandler (handleExposureTimeChange (exposureTime (state (component p)))) ;;
  callHandler
    (handleExposureCompensationChange
       (exposureCompensation (state (component p)))).

Definition handleAutofocusChange (autofocus : bool) : ModeTask unit :=
  let* p := get in
  modify (setAutofocus autofocus) ;;
  constrainMode CameraCapabilities.FocusMode (modeOf autofocus) ;;
  callHandler
    (handleFocusDistanceChange (focusDistance (state (component p)))).

Definition handleAutoWhiteBalanceChange (autoWhiteBalance : bool)
  : ModeTask unit :=
  let* p := get in
  modify (setAutoWhiteBalance autoWhiteBalance) ;;
  constrainMode CameraCapabilities.WhiteBalanceMode
    (modeOf autoWhiteBalance) ;;
  callHandler (handleWhiteBalanceChange (whiteBalance (state (component p)))).

(** *** Resolution and frame rate *)

(** [videoTrack!.applyConstraints(c)]: a [TypeError] when [videoTrack] is
    [null]. *)
Definition applyConstraintsUnguarded (c : Constraint) : PanelTask unit :=
  let* p := get in
  match videoTrack (component p) with
  | Some _ => modify (applyToTrack c)
  | None => throw "TypeError"
  end.

Definition handleResolutionChange (resolution : Resolution)
  : PanelTask unit :=
  modify (setResolution resolution) ;;
  applyConstraintsUnguarded (Size (width resolution) (height resolution)).

(** The [then] callback of [handleResolutionChange], run when the promise
    of [applyConstraints] settles as [r]; [settings] is what
    [getSettings()] returns then and [onResolutionChange] tells whether the
    parent passed the callback. *)
Definition handleResolutionChange_settled (onResolutionChange : bool)
    (resolution : Resolution) (settings : MediaTrackSettings)
    (r : Settled unit) : PanelTask unit :=
  match r with
  | Fulfilled _ =>
      emit (ConsoleLog (numbers settings !! "width")
              (numbers settings !! "height")) ;;
      if onResolutionChange then emit (OnResolutionChange resolution)
      else ret tt
  | Rejected e => throw e
  end.

Definition handleFrameRateChange (frameRate : Q) : PanelTask unit :=
  modify (setFrameRate frameRate) ;;
  applyConstraintsUnguarded (FrameRate frameRate).

(** *** The effect on [videoTrack] *)

Definition whenNumber (settings : MediaTrackSettings) (key : string)
    (set : Q -> Panel -> Panel) (p : Panel) : Panel :=
  match numbers settings !! key with
  | Some v => set v p
  | None => p
  end.

Definition whenMode (settings : MediaTrackSettings) (key : string)
    (set : bool -> Panel -> Panel) (p : Panel) : Panel :=
  match modes settings !! key with
  | Some mode => set (bool_decide (mode = "continuous")) p
  | None => p
  end.

Definition setSetting (set : Q -> State -> State) (v : Q) : Panel -> Panel :=
  setComponent (setState (set v)).

(** The effect of lines 77-120; [settings] is what [getSettings()] of the
    track returns. *)
Definition videoTrackEffect (settings : MediaTrackSettings) (p : Panel)
  : Panel :=
  match videoTrack (component p) with
  | None => p
  | Some track =>
      let p := setVideoTrackCapabilities (Some (getCapabilities track)) p in
      let p := whenMode settings CameraCapabilities.FocusMode setAutofocus p in
      let p := whenNumber settings CameraCapabilities.FocusDistance
                 (setSetting setFocusDistance) p in
      let p := whenMode settings CameraCapabilities.ExposureMode
                 setAutoexposure p in
      let p := whenNumber settings CameraCapabilities.ExposureTime
                 (setSetting setExposureTime) p in
      let p := whenNumber settings CameraCapabilities.ExposureCompensation
                 (setSetting setExposureConmensation) p in
      let p := whenMode settings CameraCapabilities.WhiteBalanceMode
                 setAutoWhiteBalance p in
      let p := whenNumber settings CameraCapabilities.WhiteBalanceTemperature
                 (setSetting setWhiteBalance) p in
      let p := whenNumber settings CameraCapabilities.Brightness
                 (setSetting setBrightness) p in
      let p := whenNumber settings CameraCapabilities.Contrast
                 (setSetting setContrast) p in
      let p := whenNumber settings CameraCapabilities.Saturation
                 (setSetting setSaturation) p in
      let p := whenNumber settings CameraCapabilities.Sharpness
                 (setSetting setSharpness) p in
      let p := match numbers settings !! "width",
                     numbers settings !! "height" with
               | Some w, Some h =>
                   setResolution {| width := w; height := h |} p
               | _, _ => p
               end in
      whenNumber settings "frameRate" setFrameRate p
  end.

(** *** The automatic modes, by name *)

Inductive Mode := Exposure | Focus | WhiteBalance.

Definition modeKeyOf (m : Mode) : string :=
  match m with
  | Exposure => CameraCapabilities.ExposureMode
  | Focus => CameraCapabilities.FocusMode
  | WhiteBalance => CameraCapabilities.WhiteBalanceMode
  end.

Definition autoHandlerOf (m : Mode) : bool -> ModeTask unit :=
  match m with
  | Exposure => handleAutoexposureChange
  | Focus => handleAutofocusChange
  | WhiteBalance => handleAutoWhiteBalanceChange
  end.

Definition autoOf (m : Mode) (p : Panel) : bool :=
  match m with
  | Exposure => autoexposure p
  | Focus => autofocus p
  | WhiteBalance => autoWhiteBalance p
  end.

(** The settings whose handler the handler of the mode calls, in order. *)
Definition slidersOf (m : Mode) : list Setting :=
  match m with
  | Exposure => [ExposureTime; ExposureCompensation]
  | Focus => [FocusDistance]
  | WhiteBalance => [WhiteBalanceTemperature]
  end.

End CameraSettings.

(** ** The first webcam component *)

(** The tracking loop of src/app/webcam.tsx. *)
Module Webcam.

(** What the refs hold when [track] runs: [video] is [videoRef.current]
    ([None] is [null], [Some paused] a video element), [canvas] is
    [canvasRef.current] ([None] is [null], [Some context] a canvas, with
    [context] telling whether [getContext("2d")] returns a context). *)
Record Refs := {
  video : option bool;
  canvas : option bool
}.

Inductive Event :=
| DetectForVideo (frameCount : nat)
| DrawHands (frameCount : nat)
| SetLastProcessTime
| ConsoleError (message : string).

(** [track(frameCount)], followed through the animation frames it asks
    for: [frames] holds the refs as they are at this call and at each
    callback of [requestAnimationFrame] after it.  [handLandmarker] tells
    whether the state of that name is set in the closure. *)
Fixpoint track (handLandmarker : bool) (frameCount : nat)
    (frames : list Refs) : list Event :=
  match frames with
  | [] => []
  | refs :: later =>
      if negb handLandmarker then []
      else
        let next := track handLandmarker (S frameCount) later in
        match video refs, canvas refs with
        | Some false, Some context =>
            if (frameCount mod 5 =? 0)%nat then
              DetectForVideo frameCount
              :: (if context
                  then DrawHands frameCount :: SetLastProcessTime :: next
                  else [ConsoleError "Canvas context not found"])
            else next
        | _, _ => next
        end
  end.

(** The frame counts on which the landmarker was run. *)
Fixpoint detected (events : list Event) : list nat :=
  match events with
  | [] => []
  | DetectForVideo frameCount :: events' => frameCount :: detected events'
  | _ :: events' => detected events'
  end.

(** A playing video over a canvas that has a context. *)
Definition ready : Refs := {| video := Some false; canvas := Some true |}.

End Webcam.

(** ** Concrete runs *)

Module Examples.
Import WebcamPreview.

Definition dir : FileSystemDirectoryHandle := {| dir_name := "recordings" |}.

Definition server : ConnectionSettings :=
  {| address := "192.168.0.10"; port := 8080 |}.

Definition chunks : list EncodedVideoChunk :=
  [ {| chunk_timestamp := 0; byteLength := 4096 |};
    {| chunk_timestamp := 33366; byteLength := 512 |};
    {| chunk_timestamp := 66733; byteLength := 640 |} ].

Definition idleProcessor : VideoProcessor :=
  {| isProcessing := true; recordedChunks := [];
     frameCount := 0; recordingStartTime := 0 |}.

(** Modelled from the spec: [VideoProcessor.startRecording]
    (app/video/videoProcessing) is not among the sources.  Section 4.3:
    it begins a new session; here the session starts at time 1000. *)
Definition encoder_startRecording (p : VideoProcessor)
    (_ : FileSystemDirectoryHandle) : VideoProcessor * Settled unit :=
  ({| isProcessing := isProcessing p; recordedChunks := [];
      frameCount := 0; recordingStartTime := 1000 |}, Fulfilled tt).

(** Modelled from the spec: [VideoProcessor.stopRecording] is not among
    the sources.  Section 4.3: it resolves after the flush, with the
    chunks, the frame count and the start time of the session readable;
    here three frames were recorded. *)
Definition encoder_stopRecording (p : VideoProcessor)
  : VideoProcessor * Settled unit :=
  ({| isProcessing := isProcessing p; recordedChunks := chunks;
      frameCount := 3; recordingStartTime := recordingStartTime p |},
   Fulfilled tt).

(** A server that is connected and answers the status query with
    [status]. *)
Definition env (status : option bool) : Env :=
  {| env_getConnectionSettings := Fulfilled (Some server);
     env_isRecording := Fulfilled status;
     env_vp_startRecording := encoder_startRecording;
     env_vp_stopRecording := encoder_stopRecording;
     env_now := 1100 |}.

Definition props : Props :=
  {| directoryHandle := Some dir;
     onRecordingStop := Some (fun _ _ => Fulfilled tt);
     onStartRecordingFailed := true |}.

Definition idle : State :=
  {| recordingInProgress := false; recordingOnServer := None;
     vp := idleProcessor |}.

Definition recording : State :=
  {| recordingInProgress := true; recordingOnServer := Some true;
     vp := fst (encoder_startRecording idleProcessor dir) |}.

Definition busy : HandLandmarker :=
  {| initialized := true; processingFrame := false;
     processingVideo := false; settingNumHands := true |}.

Definition webcam : CameraSettings.MediaStreamTrack :=
  {| CameraSettings.getCapabilities :=
       {[ CameraCapabilities.Brightness :=
            {| CameraSettings.range_min := 0;
               CameraSettings.range_max := 255;
               CameraSettings.range_step := 1 |} ]};
     CameraSettings.advanced := [] |}.

Definition panel : CameraSettings.State :=
  {| CameraSettings.trackTwoHands := true;
     CameraSettings.settingNumHands := false;
     CameraSettings.exposureTime := 0;
     CameraSettings.exposureCompensation := 0;
     CameraSettings.focusDistance := 0;
     CameraSettings.whiteBalance := 0;
     CameraSettings.brightness := 0;
     CameraSettings.contrast := 0;
     CameraSettings.saturation := 0;
     CameraSettings.sharpness := 0 |}.

Definition hd : CameraSettings.Resolution :=
  {| CameraSettings.width := 1280; CameraSettings.height := 720 |}.

Definition uhd : CameraSettings.Resolution :=
  {| CameraSettings.width := 3840; CameraSettings.height := 2160 |}.

Definition upTo (m : Q) : CameraSettings.Range :=
  {| CameraSettings.range_min := 1; CameraSettings.range_max := m;
     CameraSettings.range_step := 1 |}.

(** The capabilities of a camera that delivers up to 1920 by 1080. *)
Definition fullHd : gmap string CameraSettings.Range :=
  {[ "width"%string := upTo 1920; "height"%string := upTo 1080 ]}.
End Examples.

(** ** What the properties are stated with *)

Import WebcamPreview.

(** A call is made when its promise is awaited or left detached. *)
Definition calls (c : Call) (t : list Event) : Prop :=
  In (Await c) t \/ In (Detach c) t.

(** The same collaborators, with no server configured. *)
Definition disconnected (env : Env) : Env :=
  {| env_getConnectionSettings := Fulfilled None;
     env_isRecording := env_isRecording env;
     env_vp_startRecording := env_vp_startRecording env;
     env_vp_stopRecording := env_vp_stopRecording env;
     env_now := env_now env |}.

(** In the trace [t], the promise of [c1] was awaited, and so had settled,
    before the call [c2] was made and awaited. *)
Definition awaited_before (c1 c2 : Call) (t : list Event) : Prop :=
  exists pre post, t = pre ++ Await c2 :: post /\ In (Await c1) pre.

(** The call [c1] was made and left detached before [c2] was awaited. *)
Definition detached_before (c1 c2 : Call) (t : list Event) : Prop :=
  exists pre post, t = pre ++ Await c2 :: post /\ In (Detach c1) pre.

(** The start of the encoder does not wait for the status query: the query
    is not awaited ahead of it. *)
Definition local_start_not_delayed (t : list Event) : Prop :=
  forall d, ~ awaited_before requests_isRecording (vp_startRecording d) t.

(** The guard of [handleFrameProcessed] on a landmarker that exists. *)
Definition eligible (h : HandLandmarker) : Prop :=
  initialized h = true /\ processingFrame h = false
  /\ processingVideo h = false.

(** The flags of the landmarker count the calls outstanding on it. *)
Definition flags_count_calls (p : Pipeline) : Prop :=
  match handLandmarkerRef p with
  | None => frameCalls p = 0 /\ videoCalls p = 0
  | Some h =>
      frameCalls p = (if processingFrame h then 1 else 0)
      /\ videoCalls p = (if processingVideo h then 1 else 0)
      /\ (processingFrame h = false \/ processingVideo h = false)
  end.

(** What the loop of [generateFrameRates] keeps true of [frameRates]. *)
Definition rates_so_far (maxFrameRate : Q) (l : list Q) : Prop :=
  l !! 0%nat = Some 30%Q
  /\ (forall i x y, l !! i = Some x -> l !! S i = Some y ->
        (x < y)%Q /\ (y - x <= 30)%Q)
  /\ ((30 <= maxFrameRate)%Q -> forall x, x ∈ l -> (x <= maxFrameRate)%Q).

(** The remote part of a stop: what [stopRecording] does about the server
    before it turns to the encoder. *)
Definition remote_stop (s : State) : list Event :=
  match recordingOnServer s with
  | Some true =>
      [SetRecordingOnServer false; Detach (requests_setRecording false)]
  | _ => []
  end.

(** Two tasks of the component run one after the other: the second runs
    on the state the first leaves, however the first ended. *)
Definition followed_by {A B} (first : WebcamPreview.Task A)
    (second : WebcamPreview.Task B) : WebcamPreview.Task B :=
  fun s =>
    match first s with
    | mkRun t s' _ =>
        match second s' with
        | mkRun t' s'' o => mkRun (t ++ t') s'' o
        end
    end.

(** A session whose remote start command is confirmed while it records,
    as far as the await of the encoder in its stop: the start, the [then]
    callback of the command, and the effect run when [isRecording] turns
    [false].  The stop that effect calls resets [recordingOnServer]
    before its await, which makes [stopRecording] a new function (line
    200), and [stopRecording] is a dependency of the effect (line 211): the
    effect runs a second time while the first stop is suspended. *)
Definition mirrored_session (props : Props) (starting : Env)
  : WebcamPreview.Task unit :=
  startRecording props starting ;;
  setRecording_true_settled (Fulfilled tt) ;;
  recordingEffect_stop_entered ;;
  recordingEffect_stop_entered.

(** The stops of a session resumed, each with what the encoder answered
    to its call, in the order the answers arrive. *)
Definition stops_resumed (props : Props) (now : Z)
    (answers : list (VideoProcessor * Settled unit))
  : WebcamPreview.Task unit :=
  fold_right
    (fun answer rest =>
       followed_by (stopRecording_resumed props now answer) rest)
    (ret tt) answers.


(** The constraints a list of changes gets applied to a track: those of
    the changes whose key the track supports, in order. *)
Definition constraints_of (track : CameraSettings.MediaStreamTrack)
    (l : list (CameraSettings.Setting * Q)) : list (string * Q) :=
  map (fun xv => (CameraSettings.capabilityOf (fst xv), snd xv))
    (List.filter
       (fun xv =>
          bool_decide
            (is_Some (CameraSettings.getCapabilities track
                      !! CameraSettings.capabilityOf (fst xv))))
       l).

(** The value of the last change of the setting [x] in [l], if any. *)
Definition last_change (x : CameraSettings.Setting)
    (l : list (CameraSettings.Setting * Q)) : option Q :=
  snd <$> last (List.filter (fun xv => bool_decide (fst xv = x)) l).

(** The rate [generateFrameRates] puts at index [i]. *)
Definition nth_rate (maxFrameRate : Q) (i : nat) : Q :=
  Qmin (30 * inject_Z (Z.of_nat (S i))) maxFrameRate.

(** What the loop of [generateFrameRates] keeps true, in closed form: the
    rate at index [i] is [nth_rate i], and the rates before the last are
    below the maximum. *)
Definition rates_closed (maxFrameRate : Q) (l : list Q) : Prop :=
  (forall i x, l !! i = Some x -> (x == nth_rate maxFrameRate i)%Q)
  /\ (0 < length l)%nat
  /\ (30 * inject_Z (Z.of_nat (length l)) - 30 < maxFrameRate)%Q.

(** The changes the handler of an automatic mode makes through the
    handlers of its sliders: each slider, with the value the state holds. *)
Definition reapplied (m : CameraSettings.Mode) (s : CameraSettings.State)
  : list (CameraSettings.Setting * Q) :=
  map (fun x => (x, CameraSettings.valueOf x s)) (CameraSettings.slidersOf m).

(** [track] after the constraints [l] have been applied to it. *)
Definition constrained (l : list (string * Q))
    (track : CameraSettings.MediaStreamTrack)
  : CameraSettings.MediaStreamTrack :=
  {| CameraSettings.getCapabilities := CameraSettings.getCapabilities track;
     CameraSettings.advanced := CameraSettings.advanced track ++ l |}.

(** Whether the mode setting [key] of [settings] is continuous; [None]
    when the settings do not hold the key. *)
Definition continuous (settings : CameraSettings.MediaTrackSettings)
    (key : string) : option bool :=
  (fun mode => bool_decide (mode = "continuous"%string))
    <$> CameraSettings.modes settings !! key.

(** * Properties *)

Ltac run_task :=
  cbv [startRecording stopRecording setRecording_true_settled
       setRecording_false_settled onFatalError await awaitProcessor
       do_setRecordingInProgress do_setRecordingOnServer
       bind ret throw emit get modify resume
       trace final outcome].

(** ** Re-entrant calls *)

(** [stopRecording] is its part up to the await of the encoder, followed
    by the part that resumes with what the encoder answers. *)
Lemma stopRecording_cut (props : Props) (env : Env) (s : State) :
  stopRecording props env s
  = (stopRecording_entered ;;
     stopRecording_resumed props (env_now env)
       (env_vp_stopRecording env (vp s))) s.
Proof.
  unfold stopRecording_entered, stopRecording_resumed. run_task. cbn.
  destruct (recordingInProgress s); cbn; [| reflexivity].
  destruct (env_vp_stopRecording env (vp s)) as [p [[]|e]];
    destruct (recordingOnServer s) as [[]|]; cbn; try reflexivity;
    destruct (onRecordingStop props) as [cb|]; cbn; try reflexivity;
    destruct (cb _ _) as [[]|e']; reflexivity.
Qed.

(** C5 as stated fails: stopping twice is not always rejected.  The first
    stop of a mirrored recording is suspended at the await of the encoder
    with [recordingInProgress] still [true] (the flag is reset after that
    await); a second stop made then passes the guard, awaits the encoder's
    [stopRecording] again, hands the chunks to [onRecordingStop] and
    fulfils. *)
Lemma stop_during_stop_not_rejected :
  let env := Examples.env (Some true) in
  let suspended := stopRecording_entered Examples.recording in
  let again := stopRecording Examples.props env (final suspended) in
  stopRecording Examples.props env Examples.recording
  = (stopRecording_entered ;;
     stopRecording_resumed Examples.props (env_now env)
       (env_vp_stopRecording env (vp Examples.recording))) Examples.recording
  /\ suspended
     = mkRun [SetRecordingOnServer false;
              Detach (requests_setRecording false);
              Await vp_stopRecording]
         (setRecordingOnServer false Examples.recording) (Fulfilled tt)
  /\ recordingInProgress (final suspended) = true
  /\ again
     = mkRun [Await vp_stopRecording; ConsoleLog 3 1100 1000;
              SetRecordingInProgress false;
              Await (call_onRecordingStop Examples.chunks 1000);
              ClearRecordedChunks]
         {| recordingInProgress := false;
            recordingOnServer := Some false;
            vp := clearRecordedChunks
                    (fst (Examples.encoder_stopRecording
                            (vp Examples.recording))) |}
         (Fulfilled tt).
Proof.
  cbv zeta. split; [apply stopRecording_cut |].
  split; [reflexivity |]. split; reflexivity.
Qed.

(** C5, amended: [startRecording] called while [recordingInProgress] is
    [true], and [stopRecording] called while it is [false], reject with an
    error, call nothing and leave the state as it is.  So a stop called
    after an earlier stop has reset the flag is rejected, in particular
    after a stop that fulfilled.  A stop resets the flag after its await
    of the encoder's [stopRecording], and exactly when the encoder
    fulfilled. *)
Theorem reentrant_calls_rejected (props : Props) (env : Env) (s : State) :
  (recordingInProgress s = true ->
   startRecording props env s
   = mkRun [] s (Rejected "Recording already in progress"))
  /\ (recordingInProgress s = false ->
      stopRecording props env s
      = mkRun [] s (Rejected "Recording not in progress"))
  /\ (forall props' env',
        outcome (stopRecording props env s) = Fulfilled tt ->
        let s' := final (stopRecording props env s) in
        stopRecording props' env' s'
        = mkRun [] s' (Rejected "Recording not in progress"))
  /\ (forall props' env',
        In (SetRecordingInProgress false)
          (trace (stopRecording props env s)) ->
        let s' := final (stopRecording props env s) in
        stopRecording props' env' s'
        = mkRun [] s' (Rejected "Recording not in progress"))
  /\ (recordingInProgress s = true ->
      exists post,
        trace (stopRecording props env s)
        = remote_stop s ++ Await vp_stopRecording :: post
        /\ (In (SetRecordingInProgress false) post
            <-> snd (env_vp_stopRecording env (vp s)) = Fulfilled tt)).
Proof.
  split; [| split; [| split; [| split]]].
  - intros H. unfold startRecording, bind, get. cbn. rewrite H. reflexivity.
  - intros H. unfold stopRecording, bind, get. cbn. rewrite H. reflexivity.
  - intros props' env'. revert props' env'.
    run_task. cbn.
    destruct (recordingInProgress s) eqn:Hin; cbn; [| discriminate].
    destruct (env_vp_stopRecording env (vp s)) as [p [[]|e]] eqn:Hstop;
      destruct (recordingOnServer s) as [[]|]; cbn; try discriminate;
      destruct (onRecordingStop props) as [cb|]; cbn;
      try destruct (cb _ _) as [[]|e']; cbn; intros; try discriminate;
      reflexivity.
  - intros props' env'. revert props' env'.
    run_task. cbn.
    destruct (recordingInProgress s) eqn:Hin; cbn; [| tauto].
    destruct (env_vp_stopRecording env (vp s)) as [p [[]|e]] eqn:Hstop;
      destruct (recordingOnServer s) as [[]|]; cbn;
      try solve [intuition discriminate];
      destruct (onRecordingStop props) as [cb|]; cbn;
      try destruct (cb _ _) as [[]|e']; cbn; intros; reflexivity.
  - intros Hin. unfold remote_stop. run_task. cbn. rewrite Hin. cbn.
    destruct (env_vp_stopRecording env (vp s)) as [p [[]|e]] eqn:Hstop;
      destruct (recordingOnServer s) as [[]|]; cbn;
      try destruct (onRecordingStop props) as [cb|]; cbn;
      try destruct (cb _ _) as [[]|e']; cbn;
      (eexists; split; [reflexivity |]);
      (split; [intros H | intros H; try discriminate]);
      cbn in *; try reflexivity; try contradiction; auto.
Qed.

Lemma reentrant_calls_rejected_witness :
  startRecording Examples.props (Examples.env (Some false)) Examples.recording
  = mkRun [] Examples.recording (Rejected "Recording already in progress")
  /\ stopRecording Examples.props (Examples.env (Some false)) Examples.idle
     = mkRun [] Examples.idle (Rejected "Recording not in progress")
  /\ (let s' := final (stopRecording Examples.props
                         (Examples.env (Some false)) Examples.recording) in
      stopRecording Examples.props (Examples.env (Some false)) s'
      = mkRun [] s' (Rejected "Recording not in progress")).
Proof.
  destruct (reentrant_calls_rejected Examples.props
              (Examples.env (Some false)) Examples.recording)
    as (H1 & _ & _ & H3 & _).
  destruct (reentrant_calls_rejected Examples.props
              (Examples.env (Some false)) Examples.idle) as (_ & H2 & _).
  split; [apply H1; reflexivity |].
  split; [apply H2; reflexivity |].
  apply H3. cbn. auto 10.
Defined.

Ltac answer :=
  run_task; cbn;
  repeat match goal with
         | H : _ = _ |- _ => rewrite H; cbn
         end.

Ltac conjuncts := repeat match goal with |- _ /\ _ => split end.

Ltac absent :=
  solve [unfold calls; cbn; intuition (discriminate || congruence)].

(** ** Starting while the server records *)

(** C2: when the server answers the status query with [true], the start
    is given up as a whole.  The function returns without an exception and
    leaves the state as it was, so [recordingInProgress] stays [false]; the
    encoder's [startRecording] and [requests.setRecording] are not called;
    an error toast is shown and [onStartRecordingFailed] is invoked (the
    prop is optional: it is invoked whenever the parent passed one). *)
Theorem start_given_up_when_server_records
    (props : Props) (env : Env) (s : State)
    (dir : FileSystemDirectoryHandle) (cs : ConnectionSettings) :
  recordingInProgress s = false ->
  directoryHandle props = Some dir ->
  env_getConnectionSettings env = Fulfilled (Some cs) ->
  env_isRecording env = Fulfilled (Some true) ->
  let r := startRecording props env s in
  outcome r = Fulfilled tt
  /\ final r = s
  /\ recordingInProgress (final r) = false
  /\ trace r
     = [Await requests_getConnectionSettings; Await requests_isRecording;
        Toast error "Recording already in progress"]
       ++ (if onStartRecordingFailed props then [OnStartRecordingFailed]
           else [])
  /\ (forall d, ~ calls (vp_startRecording d) (trace r))
  /\ (forall b, ~ calls (requests_setRecording b) (trace r))
  /\ (forall b, ~ In (SetRecordingInProgress b) (trace r))
  /\ (onStartRecordingFailed props = true ->
      In OnStartRecordingFailed (trace r)).
Proof.
  intros Hidle Hdir Hcs Hstatus r. subst r. answer.
  destruct (onStartRecordingFailed props); cbn;
    conjuncts; try assumption; absent.
Qed.

Lemma start_given_up_when_server_records_witness :
  let r := startRecording Examples.props (Examples.env (Some true))
             Examples.idle in
  final r = Examples.idle
  /\ In OnStartRecordingFailed (trace r)
  /\ ~ calls (vp_startRecording Examples.dir) (trace r).
Proof.
  destruct (start_given_up_when_server_records
              Examples.props (Examples.env (Some true)) Examples.idle
              Examples.dir Examples.server
              eq_refl eq_refl eq_refl eq_refl)
    as (_ & Hfinal & _ & _ & Hlocal & _ & _ & Hfailed).
  split; [exact Hfinal |].
  split; [apply Hfailed; reflexivity | apply Hlocal].
Defined.

(** ** Starting while the status query fails *)

(** C6: when a server is configured and the status query returns
    [undefined], the start goes on as it does with no server: after the
    warning toast the run is the one of [disconnected env].  No
    [requests.setRecording] is called, [recordingOnServer] is not set, the
    failure callback is not invoked and no error toast is shown; once the
    encoder has started, the function returns with [recordingInProgress]
    set. *)
Theorem start_local_only_when_status_unavailable
    (props : Props) (env : Env) (s : State)
    (dir : FileSystemDirectoryHandle) (cs : ConnectionSettings) :
  recordingInProgress s = false ->
  directoryHandle props = Some dir ->
  env_getConnectionSettings env = Fulfilled (Some cs) ->
  env_isRecording env = Fulfilled None ->
  let r := startRecording props env s in
  let r0 := startRecording props (disconnected env) s in
  trace r
  = [Await requests_getConnectionSettings; Await requests_isRecording;
     Toast warning "Failed to get recording status"]
    ++ tl (trace r0)
  /\ final r = final r0
  /\ outcome r = outcome r0
  /\ (forall b, ~ calls (requests_setRecording b) (trace r))
  /\ (forall b, ~ In (SetRecordingOnServer b) (trace r))
  /\ recordingOnServer (final r) = recordingOnServer s
  /\ ~ In OnStartRecordingFailed (trace r)
  /\ (forall title, ~ In (Toast error title) (trace r))
  /\ (forall p,
        env_vp_startRecording env (vp s) dir = (p, Fulfilled tt) ->
        outcome r = Fulfilled tt
        /\ final r
           = {| recordingInProgress := true;
                recordingOnServer := recordingOnServer s;
                vp := p |}
        /\ trace r
           = [Await requests_getConnectionSettings;
              Await requests_isRecording;
              Toast warning "Failed to get recording status";
              Await (vp_startRecording dir);
              SetRecordingInProgress true]).
Proof.
  intros Hidle Hdir Hcs Hstatus r r0. subst r r0. answer.
  destruct (env_vp_startRecording env (vp s) dir) as [p' [[]|e]] eqn:Hstart;
    cbn; conjuncts; try absent; try reflexivity;
    intros p Hp; inversion Hp; subst; conjuncts; reflexivity.
Qed.

Lemma start_local_only_when_status_unavailable_witness :
  let r := startRecording Examples.props (Examples.env None) Examples.idle in
  outcome r = Fulfilled tt
  /\ recordingInProgress (final r) = true
  /\ recordingOnServer (final r) = None
  /\ ~ calls (requests_setRecording true) (trace r).
Proof.
  destruct (start_local_only_when_status_unavailable
              Examples.props (Examples.env None) Examples.idle
              Examples.dir Examples.server
              eq_refl eq_refl eq_refl eq_refl)
    as (_ & _ & _ & Hremote & _ & Hserver & _ & _ & Hlocal).
  destruct (Hlocal _ eq_refl) as (Hout & Hfinal & _).
  split; [exact Hout |].
  split; [rewrite Hfinal; reflexivity |].
  split; [exact Hserver | apply Hremote].
Defined.

(** ** Failures of the remote command *)

(** C3: a failure of [requests.setRecording] leaves the local session as
    the local calls made it.  On start, with the server idle and the
    encoder started, [recordingInProgress] becomes [true] whether the
    remote command then succeeds or fails; [startRecording] itself does not
    set [recordingOnServer], which becomes [true] in the callback of a
    fulfilled command only, while a rejected command changes no state.  On
    stop of a mirrored session, the remote command is left detached, the
    encoder's [stopRecording] is awaited and [recordingInProgress] becomes
    [false]; a rejected remote stop changes no state. *)
Theorem remote_failure_leaves_local_session
    (props : Props) (env : Env) (s : State)
    (dir : FileSystemDirectoryHandle) (cs : ConnectionSettings)
    (p : VideoProcessor) (message : string) :
  (recordingInProgress s = false ->
   directoryHandle props = Some dir ->
   env_getConnectionSettings env = Fulfilled (Some cs) ->
   env_isRecording env = Fulfilled (Some false) ->
   env_vp_startRecording env (vp s) dir = (p, Fulfilled tt) ->
   let r := startRecording props env s in
   let failed := setRecording_true_settled (Rejected message) (final r) in
   let succeeded := setRecording_true_settled (Fulfilled tt) (final r) in
   outcome r = Fulfilled tt
   /\ In (Detach (requests_setRecording true)) (trace r)
   /\ ~ In (Await (requests_setRecording true)) (trace r)
   /\ recordingInProgress (final r) = true
   /\ vp (final r) = p
   /\ recordingOnServer (final r) = recordingOnServer s
   /\ final failed = final r
   /\ trace failed = [Toast error "Failed to start recording"]
   /\ final succeeded = setRecordingOnServer true (final r)
   /\ recordingInProgress (final succeeded) = true)
  /\ (recordingInProgress s = true ->
      recordingOnServer s = Some true ->
      env_vp_stopRecording env (vp s) = (p, Fulfilled tt) ->
      let r := stopRecording props env s in
      let failed := setRecording_false_settled (Rejected message) (final r) in
      In (Detach (requests_setRecording false)) (trace r)
      /\ ~ In (Await (requests_setRecording false)) (trace r)
      /\ In (Await vp_stopRecording) (trace r)
      /\ recordingInProgress (final r) = false
      /\ final failed = final r
      /\ trace failed = [Toast error "Failed to stop recording"])
  /\ (forall (settled : Settled unit) (s0 : State),
        let started := setRecording_true_settled settled s0 in
        let stopped := setRecording_false_settled settled s0 in
        recordingInProgress (final started) = recordingInProgress s0
        /\ vp (final started) = vp s0
        /\ (In (SetRecordingOnServer true) (trace started) ->
            settled = Fulfilled tt)
        /\ final stopped = s0).
Proof.
  split; [| split].
  - intros Hidle Hdir Hcs Hstatus Hstart r failed succeeded.
    subst r failed succeeded. answer. conjuncts; try absent; auto.
  - intros Hactive Hserver Hstop r failed. subst r failed. answer.
    destruct (onRecordingStop props) as [cb|]; cbn;
      try destruct (cb _ _) as [[]|e]; cbn;
      conjuncts; try absent; auto 10.
  - intros [[]|e] s0; cbn; conjuncts; auto; intros [H|[]]; discriminate.
Qed.

Lemma remote_failure_leaves_local_session_witness :
  let started :=
    final (startRecording Examples.props (Examples.env (Some false))
             Examples.idle) in
  let stopped :=
    final (stopRecording Examples.props (Examples.env (Some false))
             Examples.recording) in
  recordingInProgress
    (final (setRecording_true_settled (Rejected "timeout") started)) = true
  /\ recordingInProgress
       (final (setRecording_false_settled (Rejected "timeout") stopped))
     = false.
Proof.
  destruct (remote_failure_leaves_local_session
              Examples.props (Examples.env (Some false)) Examples.idle
              Examples.dir Examples.server
              (fst (Examples.encoder_startRecording
                      Examples.idleProcessor Examples.dir))
              "timeout") as [Hstart _].
  destruct (remote_failure_leaves_local_session
              Examples.props (Examples.env (Some false)) Examples.recording
              Examples.dir Examples.server
              (fst (Examples.encoder_stopRecording
                      (vp Examples.recording)))
              "timeout") as [_ [Hstop _]].
  destruct (Hstart eq_refl eq_refl eq_refl eq_refl eq_refl)
    as (_ & _ & _ & Hin & _ & _ & Hsame & _).
  destruct (Hstop eq_refl eq_refl eq_refl)
    as (_ & _ & _ & Hout & Hsame' & _).
  cbv zeta. split.
  - rewrite Hsame. exact Hin.
  - rewrite Hsame'. exact Hout.
Defined.

(** ** The order of a stop *)

(** C4: a stop of an active session whose encoder stops and whose
    [onRecordingStop] fulfils runs, after the remote part, in this order:
    the encoder's [stopRecording] is awaited; its frame count and start
    time are read for the log; [recordingInProgress] is reset; the callback
    is awaited with the chunks and the start time the encoder holds after
    its stop; the chunks are cleared.  When the callback rejects, the
    chunks are not cleared. *)
Theorem stop_runs_in_order
    (props : Props) (env : Env) (s : State) (p : VideoProcessor)
    (callback : list EncodedVideoChunk -> Z -> Settled unit) :
  recordingInProgress s = true ->
  env_vp_stopRecording env (vp s) = (p, Fulfilled tt) ->
  onRecordingStop props = Some callback ->
  let r := stopRecording props env s in
  let remote :=
    match recordingOnServer s with
    | Some true =>
        [SetRecordingOnServer false; Detach (requests_setRecording false)]
    | _ => []
    end in
  let stopped :=
    [Await vp_stopRecording;
     ConsoleLog (frameCount p) (env_now env) (recordingStartTime p);
     SetRecordingInProgress false;
     Await (call_onRecordingStop (recordedChunks p) (recordingStartTime p))]
  in
  (callback (recordedChunks p) (recordingStartTime p) = Fulfilled tt ->
   outcome r = Fulfilled tt
   /\ trace r = remote ++ stopped ++ [ClearRecordedChunks]
   /\ recordingInProgress (final r) = false
   /\ vp (final r) = clearRecordedChunks p
   /\ recordedChunks (vp (final r)) = [])
  /\ (forall e,
        callback (recordedChunks p) (recordingStartTime p) = Rejected e ->
        outcome r = Rejected e
        /\ trace r = remote ++ stopped
        /\ recordingInProgress (final r) = false
        /\ vp (final r) = p).
Proof.
  intros Hactive Hstop Hcb r remote stopped. subst r remote stopped.
  split; [intros Hok | intros e Hko];
    destruct (recordingOnServer s) as [[]|] eqn:Hserver; answer;
    conjuncts; reflexivity.
Qed.

Lemma stop_runs_in_order_witness :
  trace (stopRecording Examples.props (Examples.env (Some false))
           Examples.recording)
  = [SetRecordingOnServer false; Detach (requests_setRecording false);
     Await vp_stopRecording; ConsoleLog 3 1100 1000;
     SetRecordingInProgress false;
     Await (call_onRecordingStop Examples.chunks 1000);
     ClearRecordedChunks].
Proof.
  destruct (stop_runs_in_order
              Examples.props (Examples.env (Some false)) Examples.recording
              (fst (Examples.encoder_stopRecording (vp Examples.recording)))
              (fun _ _ => Fulfilled tt) eq_refl eq_refl eq_refl)
    as [Hok _].
  destruct (Hok eq_refl) as (_ & Htrace & _).
  exact Htrace.
Defined.

(** ** What a start waits for *)

(** Which of the runs that reach the encoder a run is. *)
Ltac run_shape :=
  solve [ eexists; split;
          [ first [ left; split; [reflexivity | cbn; discriminate]
                  | right; split; reflexivity ]
          | first [ solve [left; split; reflexivity]
                  | solve [right; left; conjuncts; eauto]
                  | solve [right; right; conjuncts; eauto] ] ] ].

(** C7, as stated, fails: with a server connected and idle, the status
    query is awaited and has settled before the encoder is started. *)
Lemma status_query_delays_local_start :
  let t := trace (startRecording Examples.props (Examples.env (Some false))
                    Examples.idle) in
  t = [Await requests_getConnectionSettings; Await requests_isRecording;
       Detach (requests_setRecording true);
       Await (vp_startRecording Examples.dir);
       SetRecordingInProgress true]
  /\ awaited_before requests_isRecording (vp_startRecording Examples.dir) t
  /\ ~ local_start_not_delayed t.
Proof.
  cbv zeta.
  assert (Hb : awaited_before requests_isRecording
                 (vp_startRecording Examples.dir)
                 (trace (startRecording Examples.props
                           (Examples.env (Some false)) Examples.idle))).
  { exists [Await requests_getConnectionSettings; Await requests_isRecording;
            Detach (requests_setRecording true)],
           [SetRecordingInProgress true].
    split; [reflexivity | cbn; auto]. }
  split; [reflexivity |]. split; [exact Hb |].
  intros Hnot. exact (Hnot Examples.dir Hb).
Qed.

(** C7, amended: in every run of [startRecording] that reaches the start
    of the encoder, the connection settings were awaited before it and,
    with a server configured, so was the status query, which is never left
    detached; the only remote call left detached is the start command
    [requests.setRecording(true)], which is never awaited and, when it is
    made, is made before the encoder's start is awaited.  No other call is
    left detached, and the run is one of three, in this order: with no
    server configured, the connection settings are awaited, then the
    encoder's start; with a server whose status is not available, the
    connection settings, then the status query, then, after the warning,
    the encoder's start; with a server that is not recording, the
    connection settings, then the status query, then the start command is
    left detached, then the encoder's start is awaited.  After the
    encoder's start only [recordingInProgress] is set, when the encoder
    fulfilled.  In every run, also one that does not reach the encoder, no
    call but the start command is left detached, the start command is not
    awaited, and the calls awaited are the connection settings, the status
    query and the encoder's start. *)
Theorem local_start_waits_for_status_query
    (props : Props) (env : Env) (s : State)
    (d : FileSystemDirectoryHandle) :
  let t := trace (startRecording props env s) in
  (forall c, In (Detach c) t -> c = requests_setRecording true)
  /\ (forall b, ~ In (Await (requests_setRecording b)) t)
  /\ (forall c, In (Await c) t ->
        c = requests_getConnectionSettings \/ c = requests_isRecording
        \/ exists dir, c = vp_startRecording dir)
  /\
  (In (Await (vp_startRecording d)) t ->
  awaited_before requests_getConnectionSettings (vp_startRecording d) t
  /\ (forall cs, env_getConnectionSettings env = Fulfilled (Some cs) ->
        awaited_before requests_isRecording (vp_startRecording d) t)
  /\ ~ In (Detach requests_isRecording) t
  /\ (forall b, ~ In (Await (requests_setRecording b)) t)
  /\ ~ In (Detach (requests_setRecording false)) t
  /\ (In (Detach (requests_setRecording true)) t ->
      detached_before (requests_setRecording true) (vp_startRecording d) t)
  /\ (forall c, In (Detach c) t -> c = requests_setRecording true)
  /\ exists post,
       (post = []
        /\ snd (env_vp_startRecording env (vp s) d) <> Fulfilled tt
        \/ post = [SetRecordingInProgress true]
           /\ snd (env_vp_startRecording env (vp s) d) = Fulfilled tt)
       /\ (env_getConnectionSettings env = Fulfilled None
           /\ t = [Await requests_getConnectionSettings;
                   Await (vp_startRecording d)] ++ post
           \/ (exists cs, env_getConnectionSettings env = Fulfilled (Some cs))
              /\ env_isRecording env = Fulfilled None
              /\ t = [Await requests_getConnectionSettings;
                      Await requests_isRecording;
                      Toast warning "Failed to get recording status";
                      Await (vp_startRecording d)] ++ post
           \/ (exists cs, env_getConnectionSettings env = Fulfilled (Some cs))
              /\ env_isRecording env = Fulfilled (Some false)
              /\ t = [Await requests_getConnectionSettings;
                      Await requests_isRecording;
                      Detach (requests_setRecording true);
                      Await (vp_startRecording d)] ++ post)).
Proof.
  intros t. subst t.
  split; [| split; [| split]];
    [run_task; cbn;
     destruct (recordingInProgress s); cbn; [absent |];
     destruct (directoryHandle props) as [dir|]; cbn; [| absent];
     destruct (env_getConnectionSettings env) as [[cs|]|e]; cbn;
     [destruct (env_isRecording env) as [[[]|]|e]; cbn | | absent];
     try solve [destruct (onStartRecordingFailed props); cbn; absent];
     try solve [destruct (env_vp_startRecording env (vp s) dir)
                  as [p [[]|e]]; cbn;
                try absent;
                intros c H;
                repeat (destruct H as [H|H];
                        [first [discriminate | inversion H; eauto] |]);
                contradiction];
     absent ..|].
  run_task. cbn.
  destruct (recordingInProgress s); cbn; [tauto |].
  destruct (directoryHandle props) as [dir|]; cbn; [| tauto].
  destruct (env_getConnectionSettings env) as [[cs|]|e]; cbn;
    [| | absent].
  - destruct (env_isRecording env) as [[[]|]|e]; cbn.
    + destruct (onStartRecordingFailed props); cbn; absent.
    + destruct (env_vp_startRecording env (vp s) dir) as [p [[]|e]] eqn:Hlocal;
        cbn;
        (intros [H|[H|[H|[H|H]]]]; try discriminate; try contradiction;
         inversion H; subst; try rewrite Hlocal;
         conjuncts; try absent;
         try (intros; eexists [_; _; _], _; split;
              [reflexivity | cbn; auto]);
         run_shape).
    + destruct (env_vp_startRecording env (vp s) dir) as [p [[]|e]] eqn:Hlocal;
        cbn;
        (intros [H|[H|[H|[H|H]]]]; try discriminate; try contradiction;
         inversion H; subst; try rewrite Hlocal;
         conjuncts; try absent;
         try (intros; eexists [_; _; _], _; split;
              [reflexivity | cbn; auto]);
         run_shape).
    + absent.
  - destruct (env_vp_startRecording env (vp s) dir) as [p [[]|e]] eqn:Hlocal;
      cbn;
      (intros [H|[H|H]]; try discriminate; try contradiction;
       inversion H; subst; try rewrite Hlocal;
       conjuncts; try absent;
       try (intros; eexists [_], _; split; [reflexivity | cbn; auto]);
       run_shape).
Qed.

Lemma local_start_waits_for_status_query_witness :
  awaited_before requests_isRecording (vp_startRecording Examples.dir)
    (trace (startRecording Examples.props (Examples.env (Some false))
              Examples.idle)).
Proof.
  destruct (local_start_waits_for_status_query
              Examples.props (Examples.env (Some false)) Examples.idle
              Examples.dir)
    as (_ & _ & _ & Hreached).
  destruct Hreached as (_ & Hquery & _).
  - cbn. auto.
  - exact (Hquery Examples.server eq_refl).
Defined.

(** ** Frames and the landmarker *)

Lemma handleFrameProcessed_eligible
    (ref : option HandLandmarker) (frame : VideoFrame) :
  (exists h, ref = Some h /\ eligible h)
  /\ handleFrameProcessed ref frame = [ProcessFrame frame]
  \/ (forall h, ref = Some h -> ~ eligible h)
     /\ handleFrameProcessed ref frame = [].
Proof.
  unfold handleFrameProcessed, eligible.
  destruct ref as [[i pf pv sn]|]; cbn.
  - destruct i, pf, pv; cbn;
      solve [ left; split; [eexists; split; [reflexivity | cbn; auto] |
                            reflexivity]
            | right; split; [intros h [= <-]; cbn; intuition discriminate |
                             reflexivity] ].
  - right. split; [intros h [=] | reflexivity].
Qed.

Lemma arrive_flags_count_calls (p : Pipeline) (a : Arrival) :
  flags_count_calls p -> flags_count_calls (arrive p a).
Proof.
  unfold flags_count_calls.
  destruct p as [[[i pf pv sn]|] fc vc]; cbn;
    destruct a; cbn; try tauto.
  - intros (-> & -> & H). destruct i, pf, pv; cbn; intuition congruence.
  - intros (-> & -> & H). destruct pf; cbn; auto.
  - intros (-> & -> & H). destruct i, pf, pv; cbn; intuition congruence.
  - intros (-> & -> & H). destruct pv; cbn; auto.
  - intros [-> ->]. cbn. auto.
  - intros [-> ->]. cbn. auto.
Qed.

Lemma arrivals_flags_count_calls (l : list Arrival) :
  flags_count_calls (arrivals l).
Proof.
  unfold arrivals.
  assert (H : flags_count_calls mounted) by (cbn; auto).
  revert H. generalize mounted.
  induction l as [|a l IH]; intros p Hp; cbn; [exact Hp |].
  apply IH, arrive_flags_count_calls, Hp.
Qed.

(** C1: [handleFrameProcessed] calls [processFrame] exactly when the
    landmarker exists, is initialized and has neither [processingFrame] nor
    [processingVideo] set; any other frame is dropped: no call is made and
    nothing of the frame is kept.  So, after any sequence of arrivals, at
    most one live inference call is outstanding, and never together with a
    bulk reprocessing call; a frame that is passed on finds no call
    outstanding. *)
Theorem frames_never_overlap
    (l : list Arrival) (ref : option HandLandmarker) (frame : VideoFrame) :
  let p := arrivals l in
  (handleFrameProcessed ref frame = [ProcessFrame frame]
   <-> exists h, ref = Some h /\ initialized h = true
                 /\ processingFrame h = false
                 /\ processingVideo h = false)
  /\ (handleFrameProcessed ref frame <> [ProcessFrame frame] ->
      handleFrameProcessed ref frame = [])
  /\ (handleFrameProcessed (handLandmarkerRef p) frame = [] ->
      arrive p (FrameArrives frame) = p)
  /\ (handleFrameProcessed (handLandmarkerRef p) frame
      = [ProcessFrame frame] ->
      frameCalls p = 0 /\ videoCalls p = 0)
  /\ frameCalls p <= 1
  /\ videoCalls p <= 1
  /\ (frameCalls p = 0 \/ videoCalls p = 0).
Proof.
  intros p.
  pose proof (arrivals_flags_count_calls l) as Hinv. fold p in Hinv.
  split; [| split; [| split; [| split]]].
  - destruct (handleFrameProcessed_eligible ref frame)
      as [[(h & -> & He) Hcall]|[Hno Hdrop]].
    + split; [intros _; exists h; split; [reflexivity | exact He] |
              intros _; exact Hcall].
    + rewrite Hdrop. split; [discriminate |].
      intros (h & Href & He). destruct (Hno h Href He).
  - destruct (handleFrameProcessed_eligible ref frame)
      as [[_ Hcall]|[_ Hdrop]]; [congruence | auto].
  - intros Hdrop. cbn. rewrite Hdrop. reflexivity.
  - intros Hcall.
    destruct (handleFrameProcessed_eligible (handLandmarkerRef p) frame)
      as [[(h & Href & _ & Hpf & Hpv) _]|[_ Hdrop]]; [| congruence].
    unfold flags_count_calls in Hinv. rewrite Href, Hpf, Hpv in Hinv.
    tauto.
  - unfold flags_count_calls in Hinv.
    destruct (handLandmarkerRef p) as [h|].
    + destruct Hinv as (-> & -> & H).
      destruct (processingFrame h), (processingVideo h);
        conjuncts; auto; destruct H; discriminate.
    + destruct Hinv as [-> ->]. auto.
Qed.

(** ** The number of hands *)

(** C8: while the landmarker's [settingNumHands] is set, the toggle handler
    returns without changing the state, and the callback of the effect,
    run once the initialization has ended, does not call [setNumHands]. *)
Theorem numHands_requests_held_back
    (h : HandLandmarker) (value : bool) (trackTwoHands : bool)
    (r : Settled unit) (s : CameraSettings.State) :
  WebcamPreview.settingNumHands h = true ->
  CameraSettings.handleTrackTwoHandsChange (Some h) value s = s
  /\ (forall n,
        ~ In (CameraSettings.SetNumHands n)
            (trace (CameraSettings.numHandsEffect_settled h trackTwoHands
                      r s))).
Proof.
  intros Hbusy. split.
  - unfold CameraSettings.handleTrackTwoHandsChange. rewrite Hbusy.
    reflexivity.
  - intros n. unfold CameraSettings.numHandsEffect_settled. rewrite Hbusy.
    destruct r as [[]|e]; cbn; intuition discriminate.
Qed.

Lemma numHands_requests_held_back_witness :
  CameraSettings.handleTrackTwoHandsChange (Some Examples.busy) false
    Examples.panel = Examples.panel
  /\ ~ In (CameraSettings.SetNumHands 1)
         (trace (CameraSettings.numHandsEffect_settled Examples.busy false
                   (Fulfilled tt) Examples.panel)).
Proof.
  destruct (numHands_requests_held_back Examples.busy false false
              (Fulfilled tt) Examples.panel eq_refl) as [Hsame Hnone].
  split; [exact Hsame | apply Hnone].
Defined.

(** The guards are the only thing that holds a request back: with the flag
    clear, the toggle is stored and the callback sets the number of hands. *)
Lemma numHands_requests_pass_when_free
    (h : HandLandmarker) (value : bool) (s : CameraSettings.State) :
  WebcamPreview.settingNumHands h = false ->
  CameraSettings.handleTrackTwoHandsChange (Some h) value s
  = CameraSettings.setTrackTwoHands value s
  /\ trace (CameraSettings.numHandsEffect_settled h value (Fulfilled tt) s)
     = [CameraSettings.SetNumHands (if value then 2 else 1);
        CameraSettings.SetSettingNumHands false].
Proof.
  intros Hfree. split.
  - unfold CameraSettings.handleTrackTwoHandsChange. rewrite Hfree.
    reflexivity.
  - unfold CameraSettings.numHandsEffect_settled. rewrite Hfree.
    reflexivity.
Qed.

(** ** Camera settings and capabilities *)

Lemma constrain_state (key : string) (value : Q)
    (c : CameraSettings.Component) :
  CameraSettings.state (CameraSettings.constrain key value c)
  = CameraSettings.state c.
Proof.
  unfold CameraSettings.constrain.
  destruct (CameraSettings.videoTrack c) as [track|]; [| reflexivity].
  case_decide; reflexivity.
Qed.

Lemma constrain_videoTrack (key : string) (value : Q)
    (c : CameraSettings.Component) :
  CameraSettings.videoTrack (CameraSettings.constrain key value c)
  = match CameraSettings.videoTrack c with
    | Some track =>
        if decide (is_Some (CameraSettings.getCapabilities track !! key))
        then Some (CameraSettings.applyConstraints key value track)
        else Some track
    | None => None
    end.
Proof.
  unfold CameraSettings.constrain.
  destruct (CameraSettings.videoTrack c) as [track|] eqn:Htrack;
    [| exact Htrack].
  case_decide; [reflexivity | exact Htrack].
Qed.

Lemma handlerOf_constrain (x : CameraSettings.Setting) (value : Q)
    (c : CameraSettings.Component) :
  exists f,
    CameraSettings.handlerOf x value c
    = CameraSettings.constrain (CameraSettings.capabilityOf x) value
        (CameraSettings.setState f c)
    /\ (forall s, CameraSettings.valueOf x (f s) = value)
    /\ (forall s y, y <> x ->
          CameraSettings.valueOf y (f s) = CameraSettings.valueOf y s)
    /\ (forall s,
          CameraSettings.trackTwoHands (f s) = CameraSettings.trackTwoHands s
          /\ CameraSettings.settingNumHands (f s)
             = CameraSettings.settingNumHands s).
Proof.
  destruct x;
    [ exists (CameraSettings.setExposureTime value)
    | exists (CameraSettings.setExposureConmensation value)
    | exists (CameraSettings.setFocusDistance value)
    | exists (CameraSettings.setWhiteBalance value)
    | exists (CameraSettings.setBrightness value)
    | exists (CameraSettings.setContrast value)
    | exists (CameraSettings.setSaturation value)
    | exists (CameraSettings.setSharpness value) ];
    (split; [reflexivity |]); (split; [reflexivity |]);
    (split; [intros s y Hy; destruct y; (reflexivity || congruence) |
             intros s; split; reflexivity]).
Qed.

(** C10: each of the eight change handlers stores the new value in the
    state, whatever the track supports, and touches nothing else of the
    state; it calls [applyConstraints], with its own key and the new value,
    exactly when there is a video track whose capabilities have the key;
    otherwise the video track is left as it was. *)
Theorem handlers_constrain_supported_settings_only
    (x : CameraSettings.Setting) (value : Q)
    (c : CameraSettings.Component) :
  let key := CameraSettings.capabilityOf x in
  let c' := CameraSettings.handlerOf x value c in
  CameraSettings.valueOf x (CameraSettings.state c') = value
  /\ (forall y, y <> x ->
        CameraSettings.valueOf y (CameraSettings.state c')
        = CameraSettings.valueOf y (CameraSettings.state c))
  /\ (forall track,
        CameraSettings.videoTrack c = Some track ->
        is_Some (CameraSettings.getCapabilities track !! key) ->
        CameraSettings.videoTrack c'
        = Some (CameraSettings.applyConstraints key value track))
  /\ (forall track,
        CameraSettings.videoTrack c = Some track ->
        CameraSettings.getCapabilities track !! key = None ->
        CameraSettings.videoTrack c' = Some track)
  /\ (CameraSettings.videoTrack c = None ->
      CameraSettings.videoTrack c' = None)
  /\ (CameraSettings.videoTrack c' <> CameraSettings.videoTrack c ->
      exists track,
        CameraSettings.videoTrack c = Some track
        /\ is_Some (CameraSettings.getCapabilities track !! key)).
Proof.
  intros key c'. subst key c'.
  destruct (handlerOf_constrain x value c) as (f & -> & Hset & Hkeep & _).
  rewrite constrain_state, constrain_videoTrack. cbn.
  split; [apply Hset |]. split; [intros y Hy; apply Hkeep, Hy |].
  destruct (CameraSettings.videoTrack c) as [track|].
  - case_decide as Hcap.
    + conjuncts; try congruence.
      * intros t [= <-] Hnone. rewrite Hnone in Hcap.
        destruct Hcap as [? [=]].
      * intros _. exists track. auto.
    + conjuncts; congruence.
  - conjuncts; congruence.
Qed.

Lemma handlers_constrain_supported_settings_only_witness :
  let c := {| CameraSettings.state := Examples.panel;
              CameraSettings.videoTrack := Some Examples.webcam |} in
  CameraSettings.videoTrack (CameraSettings.handleBrightnessChange 128 c)
  = Some (CameraSettings.applyConstraints "brightness" 128 Examples.webcam)
  /\ CameraSettings.videoTrack (CameraSettings.handleContrastChange 50 c)
     = Some Examples.webcam
  /\ CameraSettings.contrast
       (CameraSettings.state (CameraSettings.handleContrastChange 50 c))
     = 50%Q.
Proof.
  cbv zeta.
  destruct (handlers_constrain_supported_settings_only
              CameraSettings.Brightness 128
              {| CameraSettings.state := Examples.panel;
                 CameraSettings.videoTrack := Some Examples.webcam |})
    as (_ & _ & Hcap & _).
  destruct (handlers_constrain_supported_settings_only
              CameraSettings.Contrast 50
              {| CameraSettings.state := Examples.panel;
                 CameraSettings.videoTrack := Some Examples.webcam |})
    as (Hvalue & _ & _ & Hnone & _).
  split; [| split].
  - apply (Hcap Examples.webcam eq_refl). vm_compute. eauto.
  - apply (Hnone Examples.webcam eq_refl). vm_compute. reflexivity.
  - exact Hvalue.
Defined.

(** ** Frame rates *)

Section FrameRates.
Import CameraSettings.
Local Open Scope Q_scope.

Variable maxFrameRate : Q.

Lemma Qltb_lt (x y : Q) : Qltb x y = true <-> x < y.
Proof.
  unfold Qltb. rewrite negb_true_iff, <- not_true_iff_false, Qle_bool_iff.
  split; [apply Qnot_le_lt | apply Qlt_not_le].
Qed.

Lemma lastFrameRate_snoc (l : list Q) (x : Q) : lastFrameRate (l ++ [x]) = x.
Proof. unfold lastFrameRate. rewrite last_snoc. reflexivity. Qed.

Lemma rates_so_far_start : rates_so_far maxFrameRate [30].
Proof.
  split; [reflexivity |]. split.
  - intros i x y _ Hy. destruct i; discriminate.
  - intros Hmax x Hx. apply list_elem_of_singleton in Hx. subst. exact Hmax.
Qed.

Lemma rates_so_far_push (l : list Q) :
  rates_so_far maxFrameRate l ->
  lastFrameRate l < maxFrameRate ->
  rates_so_far maxFrameRate (l ++ [Qmin (lastFrameRate l + 30) maxFrameRate]).
Proof.
  intros (Hhd & Hstep & Hmax) Hlt.
  set (z := Qmin (lastFrameRate l + 30) maxFrameRate).
  assert (Hz : lastFrameRate l < z /\ z - lastFrameRate l <= 30
               /\ z <= maxFrameRate).
  { subst z.
    destruct (Q.min_spec (lastFrameRate l + 30) maxFrameRate)
      as [[H1 H2]|[H1 H2]]; rewrite H2; lra. }
  split; [| split].
  - apply lookup_app_l_Some, Hhd.
  - intros i x y Hx Hy.
    destruct (decide (S i < length l)%nat) as [Hin|Hout].
    + rewrite lookup_app_l in Hx by lia. rewrite lookup_app_l in Hy by lia.
      eauto.
    + assert (Hi : S i = length l).
      { apply lookup_lt_Some in Hy. rewrite length_app in Hy. cbn in Hy.
        lia. }
      rewrite lookup_app_l in Hx by lia.
      rewrite Hi, list_lookup_middle in Hy by reflexivity.
      injection Hy as <-.
      assert (Hlast : lastFrameRate l = x).
      { unfold lastFrameRate. rewrite last_lookup, <- Hi. cbn.
        rewrite Hx. reflexivity. }
      rewrite <- Hlast. tauto.
  - intros H30 x Hx. apply elem_of_app in Hx as [Hx|Hx]; [eauto |].
    apply list_elem_of_singleton in Hx. subst x. tauto.
Qed.

Lemma loop_keeps_rates (fuel : nat) :
  forall l l',
    rates_so_far maxFrameRate l ->
    generateFrameRates_loop fuel maxFrameRate l = Some l' ->
    rates_so_far maxFrameRate l' /\ maxFrameRate <= lastFrameRate l'.
Proof.
  induction fuel as [|fuel IH]; intros l l' Hl; cbn;
    destruct (Qltb (lastFrameRate l) maxFrameRate) eqn:Hcond;
    try discriminate.
  - intros [= <-]. split; [exact Hl |].
    apply Qnot_lt_le. rewrite <- Qltb_lt, Hcond. discriminate.
  - apply IH, rates_so_far_push; [exact Hl | apply Qltb_lt, Hcond].
  - intros [= <-]. split; [exact Hl |].
    apply Qnot_lt_le. rewrite <- Qltb_lt, Hcond. discriminate.
Qed.

Lemma loop_ends (fuel : nat) :
  forall l,
    maxFrameRate - lastFrameRate l <= 30 * inject_Z (Z.of_nat fuel) ->
    is_Some (generateFrameRates_loop fuel maxFrameRate l).
Proof.
  induction fuel as [|fuel IH]; intros l Hfuel; cbn;
    destruct (Qltb (lastFrameRate l) maxFrameRate) eqn:Hcond; eauto.
  - apply Qltb_lt in Hcond.
    change (inject_Z (Z.of_nat 0)) with 0 in Hfuel. lra.
  - apply Qltb_lt in Hcond. apply IH. rewrite lastFrameRate_snoc.
    rewrite Nat2Z.inj_succ, <- Z.add_1_r, inject_Z_plus in Hfuel.
    change (inject_Z 1) with 1 in Hfuel.
    assert (Hpos : 0 <= inject_Z (Z.of_nat fuel)).
    { change 0 with (inject_Z 0). rewrite <- Zle_Qle. lia. }
    destruct (Q.min_spec (lastFrameRate l + 30) maxFrameRate)
      as [[H1 H2]|[H1 H2]]; rewrite H2; lra.
Qed.

Lemma loop_fuel_irrelevant (fuel1 : nat) :
  forall fuel2 l l1 l2,
    generateFrameRates_loop fuel1 maxFrameRate l = Some l1 ->
    generateFrameRates_loop fuel2 maxFrameRate l = Some l2 ->
    l1 = l2.
Proof.
  induction fuel1 as [|fuel1 IH]; intros [|fuel2] l l1 l2; cbn;
    destruct (Qltb (lastFrameRate l) maxFrameRate);
    try discriminate; try congruence.
  apply IH.
Qed.

Lemma iterations_enough :
  maxFrameRate - lastFrameRate [30]
  <= 30 * inject_Z (Z.of_nat (iterations maxFrameRate)).
Proof.
  unfold iterations. change (lastFrameRate [30]) with 30.
  pose proof (Qle_ceiling (maxFrameRate / 30)) as Hceil.
  destruct (Z.le_gt_cases 0 (Qceiling (maxFrameRate / 30))) as [Hpos|Hneg].
  - rewrite Z2Nat.id by exact Hpos.
    assert (maxFrameRate == maxFrameRate / 30 * 30) by (field).
    lra.
  - rewrite Z2Nat.nonpos by lia. change (inject_Z (Z.of_nat 0)) with 0.
    assert (inject_Z (Qceiling (maxFrameRate / 30)) < 0).
    { change 0 with (inject_Z 0). rewrite <- Zlt_Qlt. lia. }
    assert (maxFrameRate == maxFrameRate / 30 * 30) by (field).
    lra.
Qed.

End FrameRates.

(** C9: [generateFrameRates] returns, and what it returns does not depend
    on the bound on the iterations.  For a maximum of at least 30 the list
    starts at 30, each rate is greater than the one before it by at most
    30, the last rate is the maximum and no rate is above the maximum; for
    a maximum below 30 the list is [[30]], whose rate is above the
    maximum. *)
Theorem generateFrameRates_lists_rates (maxFrameRate : Q) :
  exists frameRates,
    CameraSettings.generateFrameRates maxFrameRate = Some frameRates
    /\ (forall fuel l,
          CameraSettings.generateFrameRates_loop fuel maxFrameRate [30%Q]
          = Some l -> l = frameRates)
    /\ ((30 <= maxFrameRate)%Q ->
        frameRates !! 0%nat = Some 30%Q
        /\ (forall i x y,
              frameRates !! i = Some x -> frameRates !! S i = Some y ->
              (x < y)%Q /\ (y - x <= 30)%Q)
        /\ (exists x, last frameRates = Some x /\ (x == maxFrameRate)%Q)
        /\ (forall x, x ∈ frameRates -> (x <= maxFrameRate)%Q))
    /\ ((maxFrameRate < 30)%Q ->
        frameRates = [30%Q]
        /\ (forall x, x ∈ frameRates -> (maxFrameRate < x)%Q)).
Proof.
  destruct (loop_ends maxFrameRate _ _ (iterations_enough maxFrameRate))
    as [frameRates Hrun].
  exists frameRates. split; [exact Hrun |]. split; [| split].
  - intros fuel l Hl.
    exact (loop_fuel_irrelevant maxFrameRate _ _ _ _ _ Hl Hrun).
  - intros H30.
    destruct (loop_keeps_rates maxFrameRate _ _ _
                (rates_so_far_start maxFrameRate) Hrun)
      as [(Hhd & Hstep & Hmax) Hlast].
    conjuncts; auto.
    unfold CameraSettings.lastFrameRate in Hlast.
    destruct (last frameRates) as [x|] eqn:Hx.
    + exists x. split; [reflexivity |]. cbn in Hlast.
      apply Qle_antisym; [| exact Hlast].
      apply (Hmax H30), (last_Some_elem_of _ _ Hx).
    + apply last_None in Hx. subst frameRates. discriminate.
  - intros Hlow.
    assert (Hstop : CameraSettings.generateFrameRates_loop
                      (CameraSettings.iterations maxFrameRate) maxFrameRate
                      [30%Q] = Some [30%Q]).
    { assert (Hcond : CameraSettings.Qltb
                        (CameraSettings.lastFrameRate [30%Q]) maxFrameRate
                      = false).
      { apply not_true_iff_false. rewrite Qltb_lt.
        change (CameraSettings.lastFrameRate [30%Q]) with 30%Q. lra. }
      destruct (CameraSettings.iterations maxFrameRate);
        cbn [CameraSettings.generateFrameRates_loop];
        rewrite Hcond; reflexivity. }
    unfold CameraSettings.generateFrameRates in Hrun.
    rewrite Hstop in Hrun. injection Hrun as <-.
    split; [reflexivity |].
    intros x Hx. apply list_elem_of_singleton in Hx. subst x. exact Hlow.
Qed.

Lemma generateFrameRates_lists_rates_witness :
  exists frameRates,
    CameraSettings.generateFrameRates 75 = Some frameRates
    /\ exists x, last frameRates = Some x /\ (x == 75)%Q.
Proof.
  destruct (generateFrameRates_lists_rates 75)
    as (frameRates & Hrun & _ & Hhigh & _).
  exists frameRates. split; [exact Hrun |].
  apply Hhigh. unfold Qle. cbn. lia.
Defined.

Example generateFrameRates_75 :
  CameraSettings.generateFrameRates 75 = Some [30; 60; 75]%Q.
Proof. reflexivity. Qed.

Example generateFrameRates_2997 :
  CameraSettings.generateFrameRates (2997 # 100) = Some [30%Q].
Proof. reflexivity. Qed.

(** * Further properties of the preview component *)

Ltac run_effect := unfold recordingEffect; run_task; cbn.

(** Case analysis on what a run is stuck on, innermost first. *)
Ltac stuck_case :=
  match goal with
  | |- context [match ?x with _ => _ end] =>
      lazymatch x with
      | context [match _ with _ => _ end] => fail
      | _ => destruct x eqn:?
      end
  end.

Ltac known_case :=
  match goal with
  | H : ?x = _ |- context [?x] => rewrite H
  end.

Ltac all_runs := repeat (cbn; first [known_case | stuck_case]); cbn.

(** ** The effect that follows [isRecording] *)

(** X1: the effect does nothing when [recordingInProgress] already equals
    [isRecording].  A call it makes is never turned down by the
    re-entrancy guards: the only rejection before any call is made is the
    one for a missing directory.  Once a stop it started has fulfilled,
    and once a start it started has awaited the encoder and fulfilled, the
    effect run again with the same [isRecording] does nothing. *)
Theorem recordingEffect_settles
    (props : Props) (env : Env) (isRecording : bool) (s : State) :
  let r := recordingEffect props env isRecording s in
  (isRecording = recordingInProgress s -> r = mkRun [] s (Fulfilled tt))
  /\ (forall message,
        outcome r = Rejected message -> trace r = [] ->
        isRecording = true /\ directoryHandle props = None
        /\ message = "No directory selected")
  /\ (isRecording <> recordingInProgress s ->
      outcome r = Fulfilled tt ->
      (isRecording = true ->
       exists d, In (Await (vp_startRecording d)) (trace r)) ->
      forall props' env',
        recordingEffect props' env' isRecording (final r)
        = mkRun [] (final r) (Fulfilled tt)).
Proof.
  intros r. subst r. split; [| split].
  - intros ->. run_effect. destruct (recordingInProgress s); reflexivity.
  - intros message. run_effect.
    destruct isRecording, (recordingInProgress s) eqn:Hin; all_runs;
      try discriminate; intros [= <-] _; auto.
  - intros Hne Hout Hstart props' env'. revert Hne Hout Hstart.
    run_effect.
    destruct isRecording, (recordingInProgress s) eqn:Hin; all_runs;
      intros Hne Hout Hstart;
      try discriminate; try congruence; try reflexivity;
      destruct (Hstart eq_refl) as (d & Hd); cbn in Hd;
      intuition discriminate.
Qed.

Lemma recordingEffect_settles_witness :
  let r := recordingEffect Examples.props (Examples.env (Some false)) true
             Examples.idle in
  recordingEffect Examples.props (Examples.env (Some false)) true (final r)
  = mkRun [] (final r) (Fulfilled tt).
Proof.
  destruct (recordingEffect_settles Examples.props
              (Examples.env (Some false)) true Examples.idle)
    as (_ & _ & Hnext).
  apply Hnext.
  - discriminate.
  - reflexivity.
  - intros _. exists Examples.dir. cbn. auto.
Defined.

(** ** What a start does and never does *)

(** X2: whatever the collaborators answer, [startRecording] called while
    no recording is in progress ends with [recordingInProgress] set exactly
    when it fulfils after having awaited the encoder's start.  It calls
    nothing without a directory, never sets [recordingOnServer], never
    stops the encoder, never sends the remote stop command and never clears
    the chunks. *)
Theorem start_sets_progress_after_encoder
    (props : Props) (env : Env) (s : State) :
  recordingInProgress s = false ->
  let r := startRecording props env s in
  (recordingInProgress (final r) = true
   <-> outcome r = Fulfilled tt
       /\ exists d, In (Await (vp_startRecording d)) (trace r))
  /\ (directoryHandle props = None -> trace r = [] /\ final r = s)
  /\ recordingOnServer (final r) = recordingOnServer s
  /\ (forall b, ~ In (SetRecordingOnServer b) (trace r))
  /\ ~ calls vp_stopRecording (trace r)
  /\ ~ calls (requests_setRecording false) (trace r)
  /\ ~ In ClearRecordedChunks (trace r).
Proof.
  intros Hidle r. subst r. run_task. all_runs; conjuncts;
    try absent; try reflexivity; try discriminate;
    try (split; [discriminate || (intros _; split; [reflexivity |])
                | intros [Hout [d Hd]]; try discriminate;
                  try reflexivity; cbn in Hd; intuition discriminate]);
    try (eexists; cbn; eauto 6).
Qed.

Lemma start_sets_progress_after_encoder_witness :
  recordingInProgress
    (final (startRecording Examples.props (Examples.env (Some false))
              Examples.idle)) = true.
Proof.
  destruct (start_sets_progress_after_encoder Examples.props
              (Examples.env (Some false)) Examples.idle eq_refl)
    as ([_ Hset] & _).
  apply Hset. split; [reflexivity |].
  exists Examples.dir. cbn. auto.
Defined.

(** ** Requests that reject *)

(** X3: when the promise of [requests.getConnectionSettings] or of
    [requests.isRecording] rejects, [startRecording] rejects with the same
    error: the state is unchanged, the encoder is not started, no toast is
    shown and [onStartRecordingFailed] is not invoked. *)
Theorem start_rejects_with_request
    (props : Props) (env : Env) (s : State)
    (dir : FileSystemDirectoryHandle) (e : string) :
  recordingInProgress s = false ->
  directoryHandle props = Some dir ->
  env_getConnectionSettings env = Rejected e
  \/ (exists cs, env_getConnectionSettings env = Fulfilled (Some cs))
     /\ env_isRecording env = Rejected e ->
  let r := startRecording props env s in
  outcome r = Rejected e
  /\ final r = s
  /\ (forall d, ~ calls (vp_startRecording d) (trace r))
  /\ (forall b, ~ calls (requests_setRecording b) (trace r))
  /\ (forall status title, ~ In (Toast status title) (trace r))
  /\ ~ In OnStartRecordingFailed (trace r).
Proof.
  intros Hidle Hdir [Hcs|[[cs Hcs] Hstatus]] r; subst r; answer;
    conjuncts; try reflexivity; absent.
Qed.

Lemma start_rejects_with_request_witness :
  let env :=
    {| env_getConnectionSettings := Fulfilled (Some Examples.server);
       env_isRecording := Rejected "Network Error";
       env_vp_startRecording := Examples.encoder_startRecording;
       env_vp_stopRecording := Examples.encoder_stopRecording;
       env_now := 1100 |} in
  outcome (startRecording Examples.props env Examples.idle)
  = Rejected "Network Error"
  /\ final (startRecording Examples.props env Examples.idle) = Examples.idle.
Proof.
  cbv zeta.
  destruct (start_rejects_with_request Examples.props
              {| env_getConnectionSettings := Fulfilled (Some Examples.server);
                 env_isRecording := Rejected "Network Error";
                 env_vp_startRecording := Examples.encoder_startRecording;
                 env_vp_stopRecording := Examples.encoder_stopRecording;
                 env_now := 1100 |}
              Examples.idle Examples.dir "Network Error" eq_refl eq_refl)
    as (Hout & Hfinal & _).
  - right. split; [exists Examples.server |]; reflexivity.
  - split; [exact Hout | exact Hfinal].
Defined.

(** ** An encoder that fails to start *)

(** X4: with the server idle, the remote start command is sent before the
    encoder is started.  When the encoder's start then rejects,
    [startRecording] rejects with that error and [recordingInProgress]
    stays [false], so that a later [stopRecording] is turned down by its
    guard and sends no remote stop, also once the remote start has been
    confirmed. *)
Theorem remote_started_when_encoder_fails
    (props : Props) (env : Env) (s : State)
    (dir : FileSystemDirectoryHandle) (cs : ConnectionSettings)
    (p : VideoProcessor) (e : string) :
  recordingInProgress s = false ->
  directoryHandle props = Some dir ->
  env_getConnectionSettings env = Fulfilled (Some cs) ->
  env_isRecording env = Fulfilled (Some false) ->
  env_vp_startRecording env (vp s) dir = (p, Rejected e) ->
  let r := startRecording props env s in
  trace r
  = [Await requests_getConnectionSettings; Await requests_isRecording;
     Detach (requests_setRecording true); Await (vp_startRecording dir)]
  /\ outcome r = Rejected e
  /\ recordingInProgress (final r) = false
  /\ (forall settled props' env',
        let s' := final (setRecording_true_settled settled (final r)) in
        stopRecording props' env' s'
        = mkRun [] s' (Rejected "Recording not in progress")).
Proof.
  intros Hidle Hdir Hcs Hstatus Hstart r. subst r. answer.
  conjuncts; try reflexivity; try assumption.
  intros [[]|e'] props' env'; answer; reflexivity.
Qed.

Lemma remote_started_when_encoder_fails_witness :
  let env :=
    {| env_getConnectionSettings := Fulfilled (Some Examples.server);
       env_isRecording := Fulfilled (Some false);
       env_vp_startRecording :=
         fun p _ => (p, Rejected "NotAllowedError");
       env_vp_stopRecording := Examples.encoder_stopRecording;
       env_now := 1100 |} in
  let r := startRecording Examples.props env Examples.idle in
  In (Detach (requests_setRecording true)) (trace r)
  /\ outcome r = Rejected "NotAllowedError"
  /\ recordingInProgress (final r) = false.
Proof.
  cbv zeta.
  destruct (remote_started_when_encoder_fails Examples.props
              {| env_getConnectionSettings := Fulfilled (Some Examples.server);
                 env_isRecording := Fulfilled (Some false);
                 env_vp_startRecording :=
                   fun p _ => (p, Rejected "NotAllowedError");
                 env_vp_stopRecording := Examples.encoder_stopRecording;
                 env_now := 1100 |}
              Examples.idle Examples.dir Examples.server
              Examples.idleProcessor "NotAllowedError"
              eq_refl eq_refl eq_refl eq_refl eq_refl)
    as (Htrace & Hout & Hin & _).
  split; [rewrite Htrace; cbn; auto |]. split; [exact Hout | exact Hin].
Defined.

(** ** The remote part of a stop *)

(** X5: every [stopRecording] that passes its guard begins with the remote
    part and then awaits the encoder.  The remote stop command is sent,
    detached, exactly when [recordingOnServer] is [true] at that moment;
    the flag is reset before the command is sent, is never [true]
    afterwards, and no other request is made. *)
Theorem stop_sends_remote_stop_when_mirrored
    (props : Props) (env : Env) (s : State) :
  recordingInProgress s = true ->
  let r := stopRecording props env s in
  (exists rest,
     trace r = remote_stop s ++ Await vp_stopRecording :: rest
     /\ forall c, ~ In (Detach c) rest)
  /\ (In (Detach (requests_setRecording false)) (trace r)
      <-> recordingOnServer s = Some true)
  /\ recordingOnServer (final r)
     = match recordingOnServer s with
       | Some true => Some false
       | other => other
       end
  /\ recordingOnServer (final r) <> Some true
  /\ (forall c, calls c (trace r) ->
        c = requests_setRecording false \/ c = vp_stopRecording
        \/ exists chunks start, c = call_onRecordingStop chunks start).
Proof.
  intros Hactive r. subst r. unfold remote_stop. run_task.
  all_runs; conjuncts; try discriminate; try reflexivity;
    try solve [eexists; split; [reflexivity | cbn; intuition discriminate]];
    try solve [split; [cbn; intuition discriminate | intros _; cbn; auto]];
    try solve [split; [cbn; intuition discriminate | discriminate]];
    try solve [intros c [Hc|Hc]; cbn in Hc;
               repeat destruct Hc as [Hc|Hc];
               (discriminate || contradiction || (inversion Hc; eauto 6))].
Qed.

Lemma stop_sends_remote_stop_when_mirrored_witness :
  let r := stopRecording Examples.props (Examples.env (Some false))
             Examples.recording in
  In (Detach (requests_setRecording false)) (trace r)
  /\ recordingOnServer (final r) = Some false.
Proof.
  destruct (stop_sends_remote_stop_when_mirrored Examples.props
              (Examples.env (Some false)) Examples.recording eq_refl)
    as (_ & [_ Hsent] & Hflag & _).
  split; [apply Hsent; reflexivity | exact Hflag].
Defined.

(** ** An encoder that fails to stop *)

(** X6: when the encoder's [stopRecording] rejects, the stop rejects with
    that error after the remote part: [recordingInProgress] stays [true],
    [onRecordingStop] is not called and the chunks are not cleared.  The
    stop can be tried again, and the second try sends no remote stop
    command. *)
Theorem stop_can_be_retried
    (props : Props) (env : Env) (s : State)
    (p : VideoProcessor) (e : string) :
  recordingInProgress s = true ->
  env_vp_stopRecording env (vp s) = (p, Rejected e) ->
  let r := stopRecording props env s in
  trace r = remote_stop s ++ [Await vp_stopRecording]
  /\ outcome r = Rejected e
  /\ recordingInProgress (final r) = true
  /\ vp (final r) = p
  /\ (forall props' env',
        let r' := stopRecording props' env' (final r) in
        (exists rest, trace r' = Await vp_stopRecording :: rest)
        /\ forall c, ~ In (Detach c) (trace r')).
Proof.
  intros Hactive Hstop r. subst r. unfold remote_stop.
  destruct (recordingOnServer s) as [[]|] eqn:Hserver; answer;
    (conjuncts; try reflexivity;
     intros props' env'; run_task; all_runs;
     (split; [eexists; reflexivity | cbn; intuition discriminate])).
Qed.

Lemma stop_can_be_retried_witness :
  let env :=
    {| env_getConnectionSettings := Fulfilled (Some Examples.server);
       env_isRecording := Fulfilled (Some false);
       env_vp_startRecording := Examples.encoder_startRecording;
       env_vp_stopRecording := fun p => (p, Rejected "QuotaExceededError");
       env_now := 1100 |} in
  let r := stopRecording Examples.props env Examples.recording in
  recordingInProgress (final r) = true
  /\ ~ In (Detach (requests_setRecording false))
         (trace (stopRecording Examples.props (Examples.env (Some false))
                   (final r))).
Proof.
  cbv zeta.
  destruct (stop_can_be_retried Examples.props
              {| env_getConnectionSettings := Fulfilled (Some Examples.server);
                 env_isRecording := Fulfilled (Some false);
                 env_vp_startRecording := Examples.encoder_startRecording;
                 env_vp_stopRecording :=
                   fun p => (p, Rejected "QuotaExceededError");
                 env_now := 1100 |}
              Examples.recording (vp Examples.recording)
              "QuotaExceededError" eq_refl eq_refl)
    as (_ & _ & Hin & _ & Hretry).
  split; [exact Hin |].
  apply (Hretry Examples.props (Examples.env (Some false))).
Defined.

(** ** Whole sessions *)

Lemma followed_by_run {A B} (first : WebcamPreview.Task A)
    (second : WebcamPreview.Task B) (s : State) :
  followed_by first second s
  = mkRun (trace (first s) ++ trace (second (final (first s))))
      (final (second (final (first s))))
      (outcome (second (final (first s)))).
Proof.
  unfold followed_by. destruct (first s) as [t s' o]. cbn.
  destruct (second s') as [t' s'' o']. reflexivity.
Qed.

(** A stop resumed sends nothing to the server and leaves
    [recordingOnServer] as it is; it resets [recordingInProgress] when the
    encoder fulfilled, and never sets it. *)
Lemma stopRecording_resumed_remote
    (props : Props) (now : Z) (answer : VideoProcessor * Settled unit)
    (s : State) :
  let r := stopRecording_resumed props now answer s in
  (forall c, ~ In (Detach c) (trace r))
  /\ recordingOnServer (final r) = recordingOnServer s
  /\ (recordingInProgress s = false -> recordingInProgress (final r) = false)
  /\ (snd answer = Fulfilled tt ->
      recordingInProgress (final r) = false
      /\ In (SetRecordingInProgress false) (trace r)).
Proof.
  unfold stopRecording_resumed. run_task. cbn.
  destruct answer as [p [[]|e]]; cbn;
    [| conjuncts; auto; discriminate].
  destruct (onRecordingStop props) as [cb|]; cbn;
    try destruct (cb _ _) as [[]|e']; cbn;
    conjuncts; auto; try solve [intros c H; intuition discriminate].
Qed.

Lemma stops_resumed_remote
    (props : Props) (now : Z)
    (answers : list (VideoProcessor * Settled unit)) (s : State) :
  let r := stops_resumed props now answers s in
  (forall c, ~ In (Detach c) (trace r))
  /\ recordingOnServer (final r) = recordingOnServer s
  /\ (recordingInProgress s = false -> recordingInProgress (final r) = false)
  /\ ((exists answer, In answer answers /\ snd answer = Fulfilled tt) ->
      recordingInProgress (final r) = false
      /\ In (SetRecordingInProgress false) (trace r)).
Proof.
  cbv zeta. revert s.
  induction answers as [|answer answers IH]; intros s.
  - cbn. conjuncts; auto. intros (answer & [] & _).
  - change (stops_resumed props now (answer :: answers))
      with (followed_by (stopRecording_resumed props now answer)
              (stops_resumed props now answers)).
    rewrite followed_by_run. cbn [trace final outcome].
    destruct (stopRecording_resumed_remote props now answer s)
      as (Hquiet & Hserver & Hkept & Hreset).
    destruct (IH (final (stopRecording_resumed props now answer s)))
      as (Hquiet' & Hserver' & Hkept' & Hreset').
    conjuncts.
    + intros c Hin. apply in_app_or in Hin as [Hin|Hin];
        [exact (Hquiet c Hin) | exact (Hquiet' c Hin)].
    + rewrite Hserver'. exact Hserver.
    + intros Hidle. apply Hkept', Hkept, Hidle.
    + intros (a & [<-|Hin] & Hok).
      * destruct (Hreset Hok) as [Hidle Hset].
        split; [apply Hkept', Hidle | apply in_or_app; left; exact Hset].
      * destruct Hreset' as [Hidle Hset]; [exists a; auto |].
        split; [exact Hidle | apply in_or_app; right; exact Hset].
Qed.

(** X7: in a session that starts with the server idle and has its remote
    start confirmed while it records, the effect calls [stopRecording]
    twice when [isRecording] turns [false]: the first stop resets
    [recordingOnServer] and sends the remote stop before it awaits the
    encoder; the second passes the guard, sends nothing to the server,
    calls the encoder's [stopRecording] again and changes nothing of the
    state.  So the session sends one remote start and then one remote
    stop.  However the encoder answers its calls, the stops resumed send
    nothing to the server and leave [recordingOnServer] [false], and once
    one of them has gone past the encoder no recording is in progress. *)
Theorem mirrored_session_is_balanced
    (props : Props) (starting : Env) (s : State)
    (dir : FileSystemDirectoryHandle) (cs : ConnectionSettings)
    (p : VideoProcessor) :
  recordingInProgress s = false ->
  directoryHandle props = Some dir ->
  env_getConnectionSettings starting = Fulfilled (Some cs) ->
  env_isRecording starting = Fulfilled (Some false) ->
  env_vp_startRecording starting (vp s) dir = (p, Fulfilled tt) ->
  let once :=
    (startRecording props starting ;;
     setRecording_true_settled (Fulfilled tt) ;;
     recordingEffect_stop_entered) s in
  let r := mirrored_session props starting s in
  once = mkRun
           [Await requests_getConnectionSettings; Await requests_isRecording;
            Detach (requests_setRecording true);
            Await (vp_startRecording dir); SetRecordingInProgress true;
            SetRecordingOnServer true;
            SetRecordingOnServer false; Detach (requests_setRecording false);
            Await vp_stopRecording]
           {| recordingInProgress := true; recordingOnServer := Some false;
              vp := p |}
           (Fulfilled tt)
  /\ r = mkRun (trace once ++ [Await vp_stopRecording]) (final once)
           (Fulfilled tt)
  /\ forall now answers,
       let resumed := stops_resumed props now answers (final r) in
       (forall c, ~ In (Detach c) (trace resumed))
       /\ recordingOnServer (final resumed) = Some false
       /\ ((exists answer, In answer answers /\ snd answer = Fulfilled tt) ->
           recordingInProgress (final resumed) = false
           /\ In (SetRecordingInProgress false) (trace resumed)).
Proof.
  intros Hidle Hdir Hcs Hstatus Hstart once r. subst once r.
  unfold mirrored_session, recordingEffect_stop_entered,
    stopRecording_entered.
  answer.
  split; [reflexivity |]. split; [reflexivity |].
  intros now answers.
  destruct (stops_resumed_remote props now answers
              {| recordingInProgress := true;
                 recordingOnServer := Some false; vp := p |})
    as (Hquiet & Hserver & _ & Hreset).
  conjuncts; [exact Hquiet | exact Hserver | exact Hreset].
Qed.

Lemma mirrored_session_is_balanced_witness :
  let r := mirrored_session Examples.props (Examples.env (Some false))
             Examples.idle in
  let resumed :=
    stops_resumed Examples.props 1100%Z
      [Examples.encoder_stopRecording (vp (final r));
       (vp (final r), Rejected "InvalidStateError")] (final r) in
  trace r
  = [Await requests_getConnectionSettings; Await requests_isRecording;
     Detach (requests_setRecording true);
     Await (vp_startRecording Examples.dir); SetRecordingInProgress true;
     SetRecordingOnServer true;
     SetRecordingOnServer false; Detach (requests_setRecording false);
     Await vp_stopRecording;
     Await vp_stopRecording]
  /\ recordingInProgress (final resumed) = false
  /\ recordingOnServer (final resumed) = Some false.
Proof.
  destruct (mirrored_session_is_balanced Examples.props
              (Examples.env (Some false)) Examples.idle Examples.dir
              Examples.server
              (fst (Examples.encoder_startRecording
                      Examples.idleProcessor Examples.dir))
              eq_refl eq_refl eq_refl eq_refl eq_refl)
    as (Honce & Hrun & Hresumed).
  cbv zeta. split; [rewrite Hrun, Honce; reflexivity |].
  destruct (Hresumed 1100%Z
              [Examples.encoder_stopRecording
                 (vp (final (mirrored_session Examples.props
                               (Examples.env (Some false)) Examples.idle)));
               (vp (final (mirrored_session Examples.props
                             (Examples.env (Some false)) Examples.idle)),
                Rejected "InvalidStateError")])
    as (_ & Hserver & Hreset).
  split; [| exact Hserver].
  apply Hreset. eexists. split; [left; reflexivity | reflexivity].
Defined.



(** ** No server configured *)

(** X9: when [requests.getConnectionSettings] returns [null], the start
    makes no other request: it goes straight to the encoder, shows no
    toast and does not invoke [onStartRecordingFailed]. *)
Theorem start_without_server
    (props : Props) (env : Env) (s : State)
    (dir : FileSystemDirectoryHandle) :
  recordingInProgress s = false ->
  directoryHandle props = Some dir ->
  env_getConnectionSettings env = Fulfilled None ->
  let r := startRecording props env s in
  let started := env_vp_startRecording env (vp s) dir in
  trace r
  = [Await requests_getConnectionSettings; Await (vp_startRecording dir)]
    ++ match snd started with
       | Fulfilled _ => [SetRecordingInProgress true]
       | Rejected _ => []
       end
  /\ outcome r = snd started
  /\ vp (final r) = fst started
  /\ ~ calls requests_isRecording (trace r)
  /\ (forall b, ~ calls (requests_setRecording b) (trace r))
  /\ (forall status title, ~ In (Toast status title) (trace r))
  /\ ~ In OnStartRecordingFailed (trace r).
Proof.
  intros Hidle Hdir Hcs r started. subst r started. answer.
  destruct (env_vp_startRecording env (vp s) dir) as [p [[]|e]]; cbn;
    conjuncts; try reflexivity; absent.
Qed.

Lemma start_without_server_witness :
  trace (startRecording Examples.props
           (disconnected (Examples.env (Some true))) Examples.idle)
  = [Await requests_getConnectionSettings;
     Await (vp_startRecording Examples.dir); SetRecordingInProgress true].
Proof.
  destruct (start_without_server Examples.props
              (disconnected (Examples.env (Some true))) Examples.idle
              Examples.dir eq_refl eq_refl eq_refl)
    as (Htrace & _).
  exact Htrace.
Defined.

(** * Further properties of the camera settings *)

(** ** Several changes in a row *)

Lemma changes_snoc (l : list (CameraSettings.Setting * Q))
    (xv : CameraSettings.Setting * Q) (c : CameraSettings.Component) :
  CameraSettings.changes (l ++ [xv]) c
  = CameraSettings.change (CameraSettings.changes l c) xv.
Proof. unfold CameraSettings.changes. apply fold_left_app. Qed.

Lemma constraints_of_snoc (track : CameraSettings.MediaStreamTrack)
    (l : list (CameraSettings.Setting * Q))
    (xv : CameraSettings.Setting * Q) :
  constraints_of track (l ++ [xv])
  = constraints_of track l
    ++ (if decide (is_Some (CameraSettings.getCapabilities track
                            !! CameraSettings.capabilityOf (fst xv)))
        then [(CameraSettings.capabilityOf (fst xv), snd xv)] else []).
Proof.
  unfold constraints_of. rewrite List.filter_app, map_app. cbn.
  case_bool_decide; case_decide; try contradiction; reflexivity.
Qed.

Lemma last_change_snoc (x : CameraSettings.Setting)
    (l : list (CameraSettings.Setting * Q))
    (xv : CameraSettings.Setting * Q) :
  last_change x (l ++ [xv])
  = if decide (fst xv = x) then Some (snd xv) else last_change x l.
Proof.
  unfold last_change. rewrite List.filter_app. cbn.
  case_bool_decide; case_decide; try contradiction.
  - rewrite last_snoc. reflexivity.
  - rewrite app_nil_r. reflexivity.
Qed.

(** X10: after any list of changes made through the eight handlers, the
    track has been applied the constraints of exactly those changes whose
    key it supports, in the order of the changes, and its capabilities are
    the same; each setting holds the value of its last change, or its old
    value when the list has none; without a track only the state changes. *)
Theorem changes_apply_supported_in_order
    (l : list (CameraSettings.Setting * Q))
    (c : CameraSettings.Component) :
  let c' := CameraSettings.changes l c in
  CameraSettings.videoTrack c'
  = (fun track =>
       {| CameraSettings.getCapabilities :=
            CameraSettings.getCapabilities track;
          CameraSettings.advanced :=
            CameraSettings.advanced track ++ constraints_of track l |})
    <$> CameraSettings.videoTrack c
  /\ (forall x,
        CameraSettings.valueOf x (CameraSettings.state c')
        = default (CameraSettings.valueOf x (CameraSettings.state c))
            (last_change x l))
  /\ CameraSettings.trackTwoHands (CameraSettings.state c')
     = CameraSettings.trackTwoHands (CameraSettings.state c)
  /\ CameraSettings.settingNumHands (CameraSettings.state c')
     = CameraSettings.settingNumHands (CameraSettings.state c).
Proof.
  induction l as [|[y v] l IH] using rev_ind; intros c'; subst c'.
  - cbn. split; [| auto].
    destruct c as [st [[caps adv]|]]; cbn; [| reflexivity].
    unfold constraints_of. cbn. rewrite app_nil_r. reflexivity.
  - rewrite changes_snoc. cbv zeta in IH.
    destruct IH as (Htrack & Hvalues & Htwo & Hsetting).
    unfold CameraSettings.change. cbn [fst snd].
    destruct (handlerOf_constrain y v (CameraSettings.changes l c))
      as (f & -> & Hset & Hkeep & Hflags).
    rewrite constrain_state, constrain_videoTrack. cbn.
    split; [| split; [| split]].
    + rewrite Htrack.
      destruct (CameraSettings.videoTrack c) as [track|]; cbn;
        [| reflexivity].
      rewrite constraints_of_snoc. cbn [fst snd].
      case_decide.
      * unfold CameraSettings.applyConstraints. cbn.
        rewrite app_assoc. reflexivity.
      * rewrite app_nil_r. reflexivity.
    + intros x. rewrite last_change_snoc. cbn [fst snd].
      case_decide as Hx.
      * subst x. apply Hset.
      * rewrite Hkeep by congruence. apply Hvalues.
    + rewrite (proj1 (Hflags _)). exact Htwo.
    + rewrite (proj2 (Hflags _)). exact Hsetting.
Qed.

Example changes_on_webcam :
  CameraSettings.videoTrack
    (CameraSettings.changes
       [(CameraSettings.Brightness, 128%Q); (CameraSettings.Contrast, 50%Q);
        (CameraSettings.Brightness, 64%Q)]
       {| CameraSettings.state := Examples.panel;
          CameraSettings.videoTrack := Some Examples.webcam |})
  = Some {| CameraSettings.getCapabilities :=
              CameraSettings.getCapabilities Examples.webcam;
            CameraSettings.advanced :=
              [("brightness"%string, 128%Q); ("brightness"%string, 64%Q)] |}.
Proof. reflexivity. Qed.

(** ** The chain that sets the number of hands *)

(** X11: without a landmarker the effect does nothing.  With one, it sets
    the component's [settingNumHands], which disables the toggle, and
    waits for the initialization; when that promise settles, the chain
    always ends by resetting the flag, whether the initialization
    fulfilled or rejected and whether or not [setNumHands] was called, so
    the toggle is enabled again and the rest of the state is as before.
    [setNumHands] is called only after a fulfilled initialization with the
    landmarker free, with 2 or 1 as [trackTwoHands] was when the effect
    ran; a rejection is logged. *)
Theorem numHands_chain_resets_flag
    (handLandmarker : option HandLandmarker) (later : HandLandmarker)
    (r : Settled unit) (s : CameraSettings.State) :
  let started := CameraSettings.numHandsEffect handLandmarker s in
  let ended :=
    CameraSettings.numHandsEffect_settled later
      (CameraSettings.trackTwoHands s) r (final started) in
  (handLandmarker = None -> started = mkRun [] s (Fulfilled tt))
  /\ (is_Some handLandmarker ->
      trace started
      = [CameraSettings.SetSettingNumHands true;
         CameraSettings.WaitForInitialization]
      /\ CameraSettings.isTrackTwoHandsDisabled handLandmarker
           (CameraSettings.settingNumHands (final started)) = true
      /\ final ended = CameraSettings.setSettingNumHands false s
      /\ outcome ended = Fulfilled tt
      /\ last (trace ended) = Some (CameraSettings.SetSettingNumHands false)
      /\ CameraSettings.isTrackTwoHandsDisabled handLandmarker
           (CameraSettings.settingNumHands (final ended)) = false
      /\ (forall n,
            In (CameraSettings.SetNumHands n) (trace ended)
            <-> r = Fulfilled tt
                /\ WebcamPreview.settingNumHands later = false
                /\ n = (if CameraSettings.trackTwoHands s then 2 else 1)%Z)
      /\ (forall e,
            In (CameraSettings.ConsoleError e) (trace ended)
            <-> r = Rejected e)).
Proof.
  intros started ended. subst started ended. split.
  - intros ->. reflexivity.
  - intros [h ->]. unfold CameraSettings.numHandsEffect_settled.
    destruct r as [[]|e'], (WebcamPreview.settingNumHands later) eqn:Hbusy;
      cbn; conjuncts; try reflexivity;
      try solve [intros n; split;
                 [intros [H|[H|H]]; try discriminate; try contradiction;
                  inversion H; auto
                 | intros (H1 & H2 & H3); try discriminate; subst; auto]];
      try solve [intros n; split;
                 [cbn; intuition discriminate
                 | intros (H1 & H2 & H3); discriminate]];
      try solve [intros e; split;
                 [intros [H|[H|H]]; try discriminate; try contradiction;
                  inversion H; auto
                 | intros [= <-]; auto]];
      try solve [intros e; split;
                 [cbn; intuition discriminate | discriminate]].
Qed.

(** ** Frame rates in closed form *)

Section FrameRatesClosedForm.
Import CameraSettings.
Local Open Scope Q_scope.

Variable maxFrameRate : Q.
Hypothesis room : 30 <= maxFrameRate.

Lemma inject_S (n : nat) :
  inject_Z (Z.of_nat (S n)) == inject_Z (Z.of_nat n) + 1.
Proof. rewrite Nat2Z.inj_succ, <- Z.add_1_r, inject_Z_plus. reflexivity. Qed.

Lemma lastFrameRate_lookup (l : list Q) :
  (0 < length l)%nat ->
  l !! pred (length l) = Some (lastFrameRate l).
Proof.
  intros Hlen. unfold lastFrameRate. rewrite last_lookup.
  destruct (l !! pred (length l)) as [x|] eqn:Hx; [reflexivity |].
  apply lookup_ge_None in Hx. lia.
Qed.

Lemma rates_closed_start : rates_closed maxFrameRate [30].
Proof.
  unfold rates_closed, nth_rate. cbn [length]. split; [| split].
  - intros [|i] x [=]. subst x.
    change (inject_Z (Z.of_nat 1)) with 1.
    destruct (Q.min_spec (30 * 1) maxFrameRate) as [[H1 H2]|[H1 H2]];
      rewrite H2; lra.
  - lia.
  - change (inject_Z (Z.of_nat 1)) with 1. lra.
Qed.

Lemma rates_closed_last (l : list Q) :
  rates_closed maxFrameRate l ->
  lastFrameRate l == Qmin (30 * inject_Z (Z.of_nat (length l))) maxFrameRate.
Proof.
  intros (Hnth & Hlen & _).
  pose proof (Hnth _ _ (lastFrameRate_lookup l Hlen)) as H.
  unfold nth_rate in H. rewrite Nat.succ_pred in H by lia. exact H.
Qed.

Lemma rates_closed_push (l : list Q) :
  rates_closed maxFrameRate l ->
  lastFrameRate l < maxFrameRate ->
  rates_closed maxFrameRate (l ++ [Qmin (lastFrameRate l + 30) maxFrameRate]).
Proof.
  intros Hl Hlt. pose proof (rates_closed_last l Hl) as Hlast.
  destruct Hl as (Hnth & Hlen & Hbelow).
  assert (Hfull : lastFrameRate l == 30 * inject_Z (Z.of_nat (length l))
                  /\ 30 * inject_Z (Z.of_nat (length l)) < maxFrameRate).
  { destruct (Q.min_spec (30 * inject_Z (Z.of_nat (length l))) maxFrameRate)
      as [[H1 H2]|[H1 H2]]; rewrite H2 in Hlast; lra. }
  destruct Hfull as [Hfull Hroom].
  split; [| split].
  - intros i x Hx.
    destruct (decide (i < length l)%nat) as [Hi|Hi].
    + rewrite lookup_app_l in Hx by exact Hi. eauto.
    + assert (i = length l) as ->.
      { apply lookup_lt_Some in Hx. rewrite length_app in Hx. cbn in Hx.
        lia. }
      rewrite list_lookup_middle in Hx by reflexivity.
      injection Hx as <-. unfold nth_rate.
      pose proof (inject_S (length l)) as HS.
      destruct (Q.min_spec (lastFrameRate l + 30) maxFrameRate)
        as [[H1 H2]|[H1 H2]]; rewrite H2;
        destruct (Q.min_spec (30 * inject_Z (Z.of_nat (S (length l))))
                    maxFrameRate) as [[H3 H4]|[H3 H4]]; rewrite H4; lra.
  - rewrite length_app. cbn. lia.
  - rewrite length_app. cbn [length]. rewrite Nat.add_1_r.
    pose proof (inject_S (length l)) as HS. lra.
Qed.

Lemma loop_keeps_closed (fuel : nat) :
  forall l l',
    rates_closed maxFrameRate l ->
    generateFrameRates_loop fuel maxFrameRate l = Some l' ->
    rates_closed maxFrameRate l' /\ maxFrameRate <= lastFrameRate l'.
Proof.
  induction fuel as [|fuel IH]; intros l l' Hl; cbn;
    destruct (Qltb (lastFrameRate l) maxFrameRate) eqn:Hcond;
    try discriminate.
  - intros [= <-]. split; [exact Hl |].
    apply Qnot_lt_le. rewrite <- Qltb_lt, Hcond. discriminate.
  - apply IH, rates_closed_push; [exact Hl | apply Qltb_lt, Hcond].
  - intros [= <-]. split; [exact Hl |].
    apply Qnot_lt_le. rewrite <- Qltb_lt, Hcond. discriminate.
Qed.

End FrameRatesClosedForm.

(** X12: for a maximum of at least 30, the rate at index [i] of the list
    is the smaller of [30 * (i + 1)] and the maximum, and the list has [n]
    rates where [30 * (n - 1) < maxFrameRate <= 30 * n]: every multiple of
    30 below the maximum is offered, followed by the maximum. *)
Theorem generateFrameRates_closed_form
    (maxFrameRate : Q) (frameRates : list Q) :
  (30 <= maxFrameRate)%Q ->
  CameraSettings.generateFrameRates maxFrameRate = Some frameRates ->
  (forall i x,
     frameRates !! i = Some x ->
     (x == Qmin (30 * inject_Z (Z.of_nat (S i))) maxFrameRate)%Q)
  /\ (0 < length frameRates)%nat
  /\ (30 * inject_Z (Z.of_nat (length frameRates)) - 30 < maxFrameRate)%Q
  /\ (maxFrameRate <= 30 * inject_Z (Z.of_nat (length frameRates)))%Q.
Proof.
  intros Hroom Hrun.
  destruct (loop_keeps_closed maxFrameRate _ _ _
              (rates_closed_start maxFrameRate Hroom) Hrun)
    as [Hclosed Hlast].
  pose proof (rates_closed_last maxFrameRate _ Hclosed) as Heq.
  destruct Hclosed as (Hnth & Hlen & Hbelow).
  split; [exact Hnth |]. split; [exact Hlen |]. split; [exact Hbelow |].
  destruct (Q.min_spec (30 * inject_Z (Z.of_nat (length frameRates)))
              maxFrameRate) as [[H1 H2]|[H1 H2]];
    rewrite H2 in Heq; lra.
Qed.

Lemma generateFrameRates_closed_form_witness :
  (0 < length [30; 60; 75]%Q)%nat
  /\ (30 * inject_Z (Z.of_nat (length [30; 60; 75]%Q)) - 30 < 75)%Q.
Proof.
  destruct (generateFrameRates_closed_form 75 [30; 60; 75]%Q)
    as (_ & Hlen & Hbelow & _).
  - unfold Qle. cbn. lia.
  - reflexivity.
  - split; [exact Hlen | exact Hbelow].
Defined.

(** ** Resolutions *)

(** X13: [generateResolutions] offers exactly the resolutions of
    [RESOLUTIONS] whose width and height are within the maxima the track
    reports, in the order of [RESOLUTIONS]; it fails when the capabilities
    report no width or no height; a track with larger maxima is offered at
    least the same resolutions. *)
Theorem generateResolutions_offers_what_fits
    (RESOLUTIONS : list CameraSettings.Resolution)
    (capabilities capabilities' : gmap string CameraSettings.Range)
    (w h w' h' : CameraSettings.Range) :
  capabilities !! "width" = Some w ->
  capabilities !! "height" = Some h ->
  exists offered,
    CameraSettings.generateResolutions RESOLUTIONS capabilities
    = Some offered
    /\ (forall r,
          In r offered
          <-> In r RESOLUTIONS
              /\ (CameraSettings.width r <= CameraSettings.range_max w)%Q
              /\ (CameraSettings.height r <= CameraSettings.range_max h)%Q)
    /\ sublist offered RESOLUTIONS
    /\ (capabilities' !! "width" = Some w' ->
        capabilities' !! "height" = Some h' ->
        (CameraSettings.range_max w <= CameraSettings.range_max w')%Q ->
        (CameraSettings.range_max h <= CameraSettings.range_max h')%Q ->
        exists offered',
          CameraSettings.generateResolutions RESOLUTIONS capabilities'
          = Some offered'
          /\ sublist offered offered')
    /\ (forall missing : gmap string CameraSettings.Range,
          missing !! "width" = None \/ missing !! "height" = None ->
          CameraSettings.generateResolutions RESOLUTIONS missing = None).
Proof.
  intros Hw Hh. unfold CameraSettings.generateResolutions.
  rewrite Hw, Hh. eexists. split; [reflexivity |].
  split; [| split; [| split]].
  - intros r. rewrite List.filter_In, andb_true_iff, !Qle_bool_iff.
    reflexivity.
  - induction RESOLUTIONS as [|r l IH]; cbn; [constructor |].
    destruct (_ && _); [apply sublist_skip | apply sublist_cons]; exact IH.
  - intros Hw' Hh' Hwle Hhle. rewrite Hw', Hh'.
    eexists. split; [reflexivity |].
    induction RESOLUTIONS as [|r l IH]; cbn; [constructor |].
    destruct (Qle_bool (CameraSettings.width r) (CameraSettings.range_max w)
              && Qle_bool (CameraSettings.height r)
                   (CameraSettings.range_max h)) eqn:Hfit.
    + apply andb_true_iff in Hfit as [H1 H2].
      apply Qle_bool_iff in H1, H2.
      assert (Hfit' : Qle_bool (CameraSettings.width r)
                        (CameraSettings.range_max w')
                      && Qle_bool (CameraSettings.height r)
                           (CameraSettings.range_max h') = true).
      { apply andb_true_iff. rewrite !Qle_bool_iff. split; lra. }
      rewrite Hfit'. apply sublist_skip, IH.
    + destruct (Qle_bool (CameraSettings.width r)
                  (CameraSettings.range_max w')
                && Qle_bool (CameraSettings.height r)
                     (CameraSettings.range_max h'));
        [apply sublist_cons |]; exact IH.
  - intros missing [Hm|Hm]; rewrite Hm; [reflexivity |].
    destruct (missing !! "width"); reflexivity.
Qed.

Lemma generateResolutions_offers_what_fits_witness :
  exists offered,
    CameraSettings.generateResolutions [Examples.hd; Examples.uhd]
      Examples.fullHd = Some offered
    /\ (In Examples.hd offered
        <-> In Examples.hd [Examples.hd; Examples.uhd]
            /\ (1280 <= 1920)%Q /\ (720 <= 1080)%Q).
Proof.
  destruct (generateResolutions_offers_what_fits
              [Examples.hd; Examples.uhd] Examples.fullHd Examples.fullHd
              (Examples.upTo 1920) (Examples.upTo 1080)
              (Examples.upTo 1920) (Examples.upTo 1080))
    as (offered & Hrun & Hin & _);
    [vm_compute; reflexivity | vm_compute; reflexivity |].
  exists offered. split; [exact Hrun | apply Hin].
Defined.

(** ** Controls that are enabled *)

(** X15: when the slider of a setting is enabled and
    [videoTrackCapabilities] is what the track reports, moving the slider
    applies the constraint to the track: the handler finds the key in the
    capabilities it reads from the track itself. *)
Theorem enabled_slider_constrains_track
    (x : CameraSettings.Setting) (value : Q)
    (st : CameraSettings.State) (track : CameraSettings.MediaStreamTrack)
    (autoexposure autofocus autoWhiteBalance : bool) :
  CameraSettings.isSliderDisabled x (Some track)
    (Some (CameraSettings.getCapabilities track))
    autoexposure autofocus autoWhiteBalance = false ->
  CameraSettings.handlerOf x value
    {| CameraSettings.state := st; CameraSettings.videoTrack := Some track |}
  = {| CameraSettings.state :=
         CameraSettings.state
           (CameraSettings.handlerOf x value
              {| CameraSettings.state := st;
                 CameraSettings.videoTrack := None |});
       CameraSettings.videoTrack :=
         Some (CameraSettings.applyConstraints
                 (CameraSettings.capabilityOf x) value track) |}.
Proof.
  intros Henabled.
  assert (Hcap : is_Some (CameraSettings.getCapabilities track
                          !! CameraSettings.capabilityOf x)).
  { destruct x; cbn in Henabled;
      unfold CameraSettings.isExposureTimeDisabled,
        CameraSettings.isExposureCompensationDisabled,
        CameraSettings.isFocusDistanceDisabled,
        CameraSettings.isWhiteBalanceDisabled,
        CameraSettings.isBrightnessDisabled,
        CameraSettings.isContrastDisabled,
        CameraSettings.isSaturationDisabled,
        CameraSettings.isSharpnessDisabled,
        CameraSettings.unsupported in Henabled;
      try apply orb_false_iff in Henabled as [Henabled _];
      apply negb_false_iff, bool_decide_eq_true in Henabled;
      exact Henabled. }
  destruct x; cbn;
    unfold CameraSettings.handleExposureTimeChange,
      CameraSettings.handleExposureCompensationChange,
      CameraSettings.handleFocusDistanceChange,
      CameraSettings.handleWhiteBalanceChange,
      CameraSettings.handleBrightnessChange,
      CameraSettings.handleContrastChange,
      CameraSettings.handleSaturationChange,
      CameraSettings.handleSharpnessChange,
      CameraSettings.constrain; cbn in *;
    (case_decide; [reflexivity | contradiction]).
Qed.

Lemma enabled_slider_constrains_track_witness :
  CameraSettings.videoTrack
    (CameraSettings.handleBrightnessChange 128
       {| CameraSettings.state := Examples.panel;
          CameraSettings.videoTrack := Some Examples.webcam |})
  = Some (CameraSettings.applyConstraints "brightness" 128 Examples.webcam).
Proof.
  exact (f_equal CameraSettings.videoTrack
           (enabled_slider_constrains_track CameraSettings.Brightness 128
              Examples.panel Examples.webcam true true true eq_refl)).
Defined.

(** * Properties of the tracking loop *)

Lemma track_detects_multiples (handLandmarker : bool)
    (frames : list Webcam.Refs) :
  forall frameCount k,
    In (Webcam.DetectForVideo k)
      (Webcam.track handLandmarker frameCount frames) ->
    handLandmarker = true
    /\ (k mod 5 = 0)%nat
    /\ (frameCount <= k)%nat
    /\ exists refs,
         frames !! (k - frameCount)%nat = Some refs
         /\ Webcam.video refs = Some false
         /\ is_Some (Webcam.canvas refs).
Proof.
  induction frames as [|refs later IH]; intros frameCount k;
    cbn -[Nat.modulo]; [tauto |].
  destruct handLandmarker; cbn -[Nat.modulo]; [| tauto].
  assert (Hnext :
            In (Webcam.DetectForVideo k)
              (Webcam.track true (S frameCount) later) ->
            true = true /\ (k mod 5 = 0)%nat /\ (frameCount <= k)%nat
            /\ exists refs0,
                 (refs :: later) !! (k - frameCount)%nat = Some refs0
                 /\ Webcam.video refs0 = Some false
                 /\ is_Some (Webcam.canvas refs0)).
  { intros Hin. destruct (IH _ _ Hin) as (_ & Hmod & Hle & r & Hr & Hv & Hc).
    split; [reflexivity |]. split; [exact Hmod |]. split; [lia |].
    exists r. replace (k - frameCount)%nat with (S (k - S frameCount)) by lia.
    auto. }
  destruct (Webcam.video refs) as [[]|] eqn:Hvideo; try exact Hnext.
  destruct (Webcam.canvas refs) as [context|] eqn:Hcanvas; try exact Hnext.
  destruct (Nat.eqb_spec (frameCount mod 5) 0) as [Hmod|Hmod];
    try exact Hnext.
  assert (Hhere : Webcam.DetectForVideo frameCount = Webcam.DetectForVideo k ->
                  true = true /\ (k mod 5 = 0)%nat /\ (frameCount <= k)%nat
                  /\ exists refs0,
                       (refs :: later) !! (k - frameCount)%nat = Some refs0
                       /\ Webcam.video refs0 = Some false
                       /\ is_Some (Webcam.canvas refs0)).
  { intros [= <-]. rewrite Nat.sub_diag. cbn -[Nat.modulo].
    split; [reflexivity |]. split; [exact Hmod |]. split; [lia |].
    exists refs. rewrite Hvideo, Hcanvas. eauto. }
  destruct context; cbn -[Nat.modulo].
  - intros [H|[H|[H|H]]]; try discriminate; auto.
  - intros [H|[H|H]]; try discriminate; try contradiction; auto.
Qed.

Lemma track_ready (n : nat) :
  forall frameCount,
    Webcam.detected (Webcam.track true frameCount (replicate n Webcam.ready))
    = List.filter (fun k => (k mod 5 =? 0)%nat) (seq frameCount n).
Proof.
  induction n as [|n IH]; intros frameCount; cbn -[Nat.modulo];
    [reflexivity |].
  destruct (frameCount mod 5 =? 0)%nat; cbn -[Nat.modulo]; rewrite IH;
    reflexivity.
Qed.

(** X16: the loop runs the landmarker only when it is set, only on
    animation frames whose count is a multiple of 5, and only when the
    video is there and playing and the canvas is there.  While all of that
    holds and the canvas has a context, it runs it on every fifth frame:
    over [n] frames counted from [frameCount], on exactly the counts in
    that range that 5 divides. *)
Theorem track_detects_every_fifth_frame
    (handLandmarker : bool) (frameCount : nat)
    (frames : list Webcam.Refs) (n : nat) :
  (forall k,
     In (Webcam.DetectForVideo k)
       (Webcam.track handLandmarker frameCount frames) ->
     handLandmarker = true
     /\ (k mod 5 = 0)%nat
     /\ (frameCount <= k < frameCount + length frames)%nat
     /\ exists refs,
          frames !! (k - frameCount)%nat = Some refs
          /\ Webcam.video refs = Some false
          /\ is_Some (Webcam.canvas refs))
  /\ Webcam.detected
       (Webcam.track true frameCount (replicate n Webcam.ready))
     = List.filter (fun k => (k mod 5 =? 0)%nat) (seq frameCount n)
  /\ Webcam.track false frameCount frames = [].
Proof.
  split; [| split].
  - intros k Hin.
    destruct (track_detects_multiples _ _ _ _ Hin)
      as (Hset & Hmod & Hle & refs & Hrefs & Hvideo & Hcanvas).
    split; [exact Hset |]. split; [exact Hmod |].
    split; [| eauto].
    apply lookup_lt_Some in Hrefs. lia.
  - apply track_ready.
  - destruct frames; reflexivity.
Qed.

Example track_twelve_frames :
  Webcam.detected (Webcam.track true 0 (replicate 12 Webcam.ready))
  = [0; 5; 10]%nat.
Proof. reflexivity. Qed.

Lemma track_stops_without_context (pre : list Webcam.Refs) :
  forall frameCount refs post,
    Webcam.video refs = Some false ->
    Webcam.canvas refs = Some false ->
    ((frameCount + length pre) mod 5 = 0)%nat ->
    Webcam.track true frameCount (pre ++ refs :: post)
    = Webcam.track true frameCount (pre ++ [refs])
    /\ last (Webcam.track true frameCount (pre ++ [refs]))
       = Some (Webcam.ConsoleError "Canvas context not found").
Proof.
  induction pre as [|r pre IH]; intros frameCount refs post Hv Hc Hmod.
  - cbn -[Nat.modulo] in *. rewrite Nat.add_0_r in Hmod.
    rewrite Hv, Hc, Hmod. cbn.
    split; reflexivity.
  - assert (Hmod' : ((S frameCount + length pre) mod 5 = 0)%nat).
    { replace (S frameCount + length pre)%nat
        with (frameCount + length (r :: pre))%nat by (cbn [length]; lia).
      exact Hmod. }
    destruct (IH (S frameCount) refs post Hv Hc Hmod') as [Hsame Hlast].
    cbn [app Webcam.track negb]. rewrite Hsame.
    split; [reflexivity |].
    destruct (Webcam.video r) as [[]|]; try exact Hlast.
    destruct (Webcam.canvas r) as [[]|]; try exact Hlast;
      destruct (frameCount mod 5 =? 0)%nat; try exact Hlast.
    + rewrite !last_cons, Hlast. reflexivity.
    + reflexivity.
Qed.

(** X17: the loop ends for good when, on a frame it runs the landmarker
    on, the canvas has no context: the error is logged, no further
    animation frame is asked for, and nothing is detected on any later
    frame, whatever the refs hold then. *)
Theorem track_ends_without_context
    (frameCount : nat) (pre post : list Webcam.Refs) (refs : Webcam.Refs) :
  Webcam.video refs = Some false ->
  Webcam.canvas refs = Some false ->
  ((frameCount + length pre) mod 5 = 0)%nat ->
  Webcam.track true frameCount (pre ++ refs :: post)
  = Webcam.track true frameCount (pre ++ [refs])
  /\ last (Webcam.track true frameCount (pre ++ refs :: post))
     = Some (Webcam.ConsoleError "Canvas context not found")
  /\ forall k,
       In (Webcam.DetectForVideo k)
         (Webcam.track true frameCount (pre ++ refs :: post)) ->
       (k <= frameCount + length pre)%nat.
Proof.
  intros Hv Hc Hmod.
  destruct (track_stops_without_context pre frameCount refs post Hv Hc Hmod)
    as [Hsame Hlast].
  split; [exact Hsame |]. split; [rewrite Hsame; exact Hlast |].
  intros k Hin. rewrite Hsame in Hin.
  destruct (track_detects_multiples _ _ _ _ Hin)
    as (_ & _ & Hle & r & Hr & _).
  apply lookup_lt_Some in Hr. rewrite length_app in Hr. cbn in Hr. lia.
Qed.

Lemma track_ends_without_context_witness :
  Webcam.track true 0
    ([Webcam.ready; Webcam.ready; Webcam.ready; Webcam.ready; Webcam.ready]
     ++ {| Webcam.video := Some false; Webcam.canvas := Some false |}
        :: replicate 20 Webcam.ready)
  = Webcam.track true 0
      ([Webcam.ready; Webcam.ready; Webcam.ready; Webcam.ready;
        Webcam.ready]
       ++ [{| Webcam.video := Some false; Webcam.canvas := Some false |}]).
Proof.
  destruct (track_ends_without_context 0
              [Webcam.ready; Webcam.ready; Webcam.ready; Webcam.ready;
               Webcam.ready]
              (replicate 20 Webcam.ready)
              {| Webcam.video := Some false; Webcam.canvas := Some false |}
              eq_refl eq_refl eq_refl) as [Hsame _].
  exact Hsame.
Defined.

(** * Properties of the whole panel *)

Section Panel.
Import CameraSettings.

Ltac run_panel :=
  cbv [autoHandlerOf handleAutoexposureChange handleAutofocusChange
       handleAutoWhiteBalanceChange constrainMode callHandler
       handleResolutionChange handleFrameRateChange
       handleResolutionChange_settled applyConstraintsUnguarded
       bind ret throw emit get modify resume trace final outcome].

(** ** The switches of the automatic modes *)

Lemma constrainMode_run (key mode : string) (p : Panel) :
  constrainMode key mode p
  = match videoTrack (component p) with
    | Some track =>
        if decide (is_Some (getCapabilities track !! key))
        then mkRun [ApplyMode key mode]
               (applyToTrack (AdvancedMode key mode) p) (Fulfilled tt)
        else mkRun [] p (Fulfilled tt)
    | None => mkRun [] p (Fulfilled tt)
    end.
Proof.
  unfold constrainMode. cbv [bind get modify emit ret].
  destruct (videoTrack (component p)) as [track|]; [| reflexivity].
  case_decide; reflexivity.
Qed.

(** A slider's handler called by the handler of a mode makes one call on
    the track when the track supports its key, and none otherwise. *)
Lemma callHandler_run (x : Setting) (value : Q) (p : Panel) :
  callHandler (handlerOf x value) p
  = mkRun
      match videoTrack (component p) with
      | Some track =>
          if decide (is_Some (getCapabilities track !! capabilityOf x))
          then [ApplyNumber (capabilityOf x) value]
          else []
      | None => []
      end
      (setComponent (handlerOf x value) p) (Fulfilled tt).
Proof.
  unfold callHandler. cbv [bind get modify].
  destruct (handlerOf_constrain x value (component p)) as (f & Hrun & _).
  rewrite Hrun, constrain_videoTrack. cbn [setState videoTrack].
  destruct (videoTrack (component p)) as [[caps adv]|]; cbn;
    [| reflexivity].
  case_decide; cbn;
    [rewrite drop_app_length | rewrite drop_all]; reflexivity.
Qed.

(** X18: the handler of an automatic mode stores the new flag and leaves
    the other flags and every slider value as they are.  The calls it
    makes on the track are, in this order: the mode, continuous or manual,
    when the track supports the mode's key; then, through their handlers
    and in the order of the handler's body, the stored values of the
    sliders of its category that the track supports, also when the mode
    is switched to automatic.  It never throws; without a track it makes
    no call and only the flag changes. *)
Theorem auto_switch_applies_sliders_again
    (m : Mode) (auto : bool) (p : Panel) :
  let r := autoHandlerOf m auto p in
  outcome r = Fulfilled tt
  /\ trace r
     = match videoTrack (component p) with
       | Some track =>
           (if decide (is_Some (getCapabilities track !! modeKeyOf m))
            then [ApplyMode (modeKeyOf m) (modeOf auto)]
            else [])
           ++ map (fun kv => ApplyNumber (fst kv) (snd kv))
                (constraints_of track (reapplied m (state (component p))))
       | None => []
       end
  /\ autoOf m (final r) = auto
  /\ (forall m', m' <> m -> autoOf m' (final r) = autoOf m' p)
  /\ state (component (final r)) = state (component p)
  /\ videoTrack (component (final r))
     = (fun track =>
          constrained
            (constraints_of track (reapplied m (state (component p))))
            track)
       <$> videoTrack (component p)
  /\ applied (final r)
     = applied p
       ++ match videoTrack (component p) with
          | Some track =>
              if decide (is_Some (getCapabilities track !! modeKeyOf m))
              then [AdvancedMode (modeKeyOf m) (modeOf auto)]
              else []
          | None => []
          end
  /\ videoTrackCapabilities (final r) = videoTrackCapabilities p
  /\ resolution (final r) = resolution p
  /\ frameRate (final r) = frameRate p.
Proof.
  intros r. subst r.
  destruct m;
    cbv [autoHandlerOf handleAutoexposureChange handleAutofocusChange
         handleAutoWhiteBalanceChange bind get modify];
    rewrite constrainMode_run;
    change handleExposureTimeChange with (handlerOf ExposureTime);
    change handleExposureCompensationChange
      with (handlerOf ExposureCompensation);
    change handleFocusDistanceChange with (handlerOf FocusDistance);
    change handleWhiteBalanceChange with (handlerOf WhiteBalanceTemperature);
    destruct p as [[st [[caps adv]|]] vtc ae af aw res fr app];
    cbn [component videoTrack setAutoexposure setAutofocus
         setAutoWhiteBalance getCapabilities];
    try case_decide; cbv beta iota;
    rewrite !callHandler_run; cbv beta iota;
    destruct st;
    cbn; unfold constrain, constrained, constraints_of, reapplied; cbn;
    repeat (case_decide; cbn); repeat (case_bool_decide; cbn);
    try contradiction;
    (conjuncts; try reflexivity;
     try solve [intros [] Hne; cbn; congruence];
     try solve [rewrite app_nil_r; reflexivity];
     try solve [unfold applyConstraints; cbn; rewrite <- app_assoc;
                reflexivity]).
Qed.

(** The switch of the autofocus turned off on a webcam with a focus
    distance: the mode is applied first, the stored distance after it. *)
Example autofocus_on_camera :
  let track :=
    {| getCapabilities :=
         {[ CameraCapabilities.FocusMode :=
              {| range_min := 0; range_max := 1; range_step := 1 |};
            CameraCapabilities.FocusDistance :=
              {| range_min := 0; range_max := 250; range_step := 5 |} ]};
       advanced := [] |} in
  let p :=
    {| component := {| state := Examples.panel; videoTrack := Some track |};
       videoTrackCapabilities := None;
       autoexposure := true; autofocus := true; autoWhiteBalance := true;
       resolution := Examples.hd; frameRate := 30; applied := [] |} in
  trace (handleAutofocusChange false p)
  = [ApplyMode "focusMode" "manual";
     ApplyNumber "focusDistance" (focusDistance Examples.panel)]
  /\ autofocus (final (handleAutofocusChange false p)) = false.
Proof. split; vm_compute; reflexivity. Qed.

(** ** Resolution and frame rate *)

(** X19: the handlers of the two dropdowns use the track without a guard.
    With no track they store the new value and then throw a [TypeError],
    applying nothing.  Each dropdown is enabled only when there is a track,
    so a change made through an enabled dropdown never throws: it stores
    the value and applies it to the track.  The parent's
    [onResolutionChange] is called only once the track has accepted the
    constraint, with the resolution that was asked for. *)
Theorem dropdowns_need_a_track
    (rate : Q) (size : Resolution) (p : Panel) :
  let byRate := handleFrameRateChange rate p in
  let bySize := handleResolutionChange size p in
  (videoTrack (component p) = None ->
   outcome byRate = Rejected "TypeError"
   /\ final byRate = setFrameRate rate p
   /\ outcome bySize = Rejected "TypeError"
   /\ final bySize = setResolution size p)
  /\ (isFrameRateDisabled (videoTrack (component p))
        (videoTrackCapabilities p) = false ->
      outcome byRate = Fulfilled tt
      /\ final byRate = applyToTrack (FrameRate rate) (setFrameRate rate p))
  /\ (isResolutionDisabled (videoTrack (component p))
        (videoTrackCapabilities p) = false ->
      outcome bySize = Fulfilled tt
      /\ final bySize
         = applyToTrack (Size (width size) (height size))
             (setResolution size p))
  /\ (forall onResolutionChange settings r q asked,
        In (OnResolutionChange asked)
          (trace (handleResolutionChange_settled onResolutionChange size
                    settings r q))
        <-> onResolutionChange = true /\ r = Fulfilled tt /\ asked = size).
Proof.
  intros byRate bySize. subst byRate bySize.
  unfold isFrameRateDisabled, isResolutionDisabled.
  destruct p as [[st [track|]] [caps|] ae af aw res fr app];
    run_panel; cbn; conjuncts; try discriminate; try reflexivity;
    try solve [intros; conjuncts; reflexivity];
    (intros [] settings [[]|e] q asked; cbn;
     (split; [intros H | intros (H1 & H2 & H3)]);
     try discriminate; try contradiction;
     try solve [intuition discriminate];
     try solve [destruct H as [H|[H|H]];
                try discriminate; try contradiction;
                inversion H; auto];
     subst; auto).
Qed.

Lemma dropdowns_need_a_track_witness :
  let p :=
    {| component := {| state := Examples.panel;
                       videoTrack := Some Examples.webcam |};
       videoTrackCapabilities := Some Examples.fullHd;
       autoexposure := true; autofocus := true; autoWhiteBalance := true;
       resolution := Examples.hd; frameRate := 30; applied := [] |} in
  outcome (handleFrameRateChange 60 p) = Fulfilled tt
  /\ applied (final (handleFrameRateChange 60 p)) = [FrameRate 60].
Proof.
  cbv zeta.
  destruct (dropdowns_need_a_track 60 Examples.hd
              {| component := {| state := Examples.panel;
                                 videoTrack := Some Examples.webcam |};
                 videoTrackCapabilities := Some Examples.fullHd;
                 autoexposure := true; autofocus := true;
                 autoWhiteBalance := true;
                 resolution := Examples.hd; frameRate := 30;
                 applied := [] |})
    as (_ & Hrate & _).
  destruct (Hrate eq_refl) as [Hout Hfinal].
  split; [exact Hout | rewrite Hfinal; reflexivity].
Defined.

End Panel.

(** ** The effect on the video track *)

Section TrackEffect.
Import CameraSettings.

Variable settings : MediaTrackSettings.

Lemma whenNumber_default (key : string) (value : Panel -> Q)
    (set : Q -> Panel -> Panel) (p : Panel) :
  (forall q, set (value q) q = q) ->
  whenNumber settings key set p
  = set (default (value p) (numbers settings !! key)) p.
Proof.
  intros Hid. unfold whenNumber.
  destruct (numbers settings !! key); cbn; [reflexivity |].
  symmetry. apply Hid.
Qed.

Lemma whenMode_default (key : string) (value : Panel -> bool)
    (set : bool -> Panel -> Panel) (p : Panel) :
  (forall q, set (value q) q = q) ->
  whenMode settings key set p
  = set (default (value p) (continuous settings key)) p.
Proof.
  intros Hid. unfold whenMode, continuous.
  destruct (modes settings !! key); cbn; [reflexivity |].
  symmetry. apply Hid.
Qed.

Lemma enabled_slider_supported (x : Setting)
    (track : MediaStreamTrack) (autoexposure autofocus autoWhiteBalance : bool) :
  isSliderDisabled x (Some track) (Some (getCapabilities track))
    autoexposure autofocus autoWhiteBalance = false ->
  is_Some (getCapabilities track !! capabilityOf x).
Proof.
  intros Henabled.
  destruct x; cbn in Henabled;
    unfold isExposureTimeDisabled, isExposureCompensationDisabled,
      isFocusDistanceDisabled, isWhiteBalanceDisabled,
      isBrightnessDisabled, isContrastDisabled, isSaturationDisabled,
      isSharpnessDisabled, unsupported in Henabled;
    try apply orb_false_iff in Henabled as [Henabled _];
    apply negb_false_iff, bool_decide_eq_true in Henabled;
    exact Henabled.
Qed.

Ltac identity := intros [[[] ?] ? ? ? ? ? ? ?]; reflexivity.

Lemma videoTrackEffect_fields (p : Panel) (track : MediaStreamTrack) :
  videoTrack (component p) = Some track ->
  let p' := videoTrackEffect settings p in
  videoTrackCapabilities p' = Some (getCapabilities track)
  /\ videoTrack (component p') = Some track
  /\ applied p' = applied p
  /\ (forall x,
        valueOf x (state (component p'))
        = default (valueOf x (state (component p)))
            (numbers settings !! capabilityOf x))
  /\ (forall m,
        autoOf m p' = default (autoOf m p) (continuous settings (modeKeyOf m)))
  /\ frameRate p'
     = default (frameRate p) (numbers settings !! "frameRate")
  /\ resolution p'
     = match numbers settings !! "width", numbers settings !! "height" with
       | Some w, Some h => {| width := w; height := h |}
       | _, _ => resolution p
       end
  /\ trackTwoHands (state (component p'))
     = trackTwoHands (state (component p))
  /\ settingNumHands (state (component p'))
     = settingNumHands (state (component p)).
Proof.
  intros Htrack p'. subst p'.
  destruct p as [[st vt] vtc ae af aw res fr app]. cbn in Htrack. subst vt.
  unfold videoTrackEffect. cbn -[whenNumber whenMode].
  rewrite (whenMode_default CameraCapabilities.FocusMode
             autofocus setAutofocus) by identity.
  cbn -[whenNumber whenMode].
  rewrite (whenNumber_default CameraCapabilities.FocusDistance
             (fun q => focusDistance (state (component q)))
             (setSetting setFocusDistance)) by identity.
  cbn -[whenNumber whenMode].
  rewrite (whenMode_default CameraCapabilities.ExposureMode
             autoexposure setAutoexposure) by identity.
  cbn -[whenNumber whenMode].
  rewrite (whenNumber_default CameraCapabilities.ExposureTime
             (fun q => exposureTime (state (component q)))
             (setSetting setExposureTime)) by identity.
  cbn -[whenNumber whenMode].
  rewrite (whenNumber_default CameraCapabilities.ExposureCompensation
             (fun q => exposureCompensation (state (component q)))
             (setSetting setExposureConmensation)) by identity.
  cbn -[whenNumber whenMode].
  rewrite (whenMode_default CameraCapabilities.WhiteBalanceMode
             autoWhiteBalance setAutoWhiteBalance) by identity.
  cbn -[whenNumber whenMode].
  rewrite (whenNumber_default CameraCapabilities.WhiteBalanceTemperature
             (fun q => whiteBalance (state (component q)))
             (setSetting setWhiteBalance)) by identity.
  cbn -[whenNumber whenMode].
  rewrite (whenNumber_default CameraCapabilities.Brightness
             (fun q => brightness (state (component q)))
             (setSetting setBrightness)) by identity.
  cbn -[whenNumber whenMode].
  rewrite (whenNumber_default CameraCapabilities.Contrast
             (fun q => contrast (state (component q)))
             (setSetting setContrast)) by identity.
  cbn -[whenNumber whenMode].
  rewrite (whenNumber_default CameraCapabilities.Saturation
             (fun q => saturation (state (component q)))
             (setSetting setSaturation)) by identity.
  cbn -[whenNumber whenMode].
  rewrite (whenNumber_default CameraCapabilities.Sharpness
             (fun q => sharpness (state (component q)))
             (setSetting setSharpness)) by identity.
  cbn -[whenNumber whenMode].
  destruct (numbers settings !! "width") as [w|],
    (numbers settings !! "height") as [h|];
    (rewrite (whenNumber_default "frameRate" frameRate setFrameRate)
       by identity);
    cbn; (conjuncts; try reflexivity; intros []; reflexivity).
Qed.

End TrackEffect.

(** X20: without a track the effect changes nothing, so the capabilities
    of an earlier track stay in the state.  With a track it stores the
    capabilities the track reports and, for every key the track's settings
    hold, the value of that key, keeping the old value of every other
    control; an automatic mode is on exactly when its setting is
    continuous.  It applies no constraint.  Afterwards, a change made
    through any slider that is enabled is applied to the track.  The
    resolution is replaced only when the settings hold both a width and a
    height; the state of the number of hands is left as it is. *)
Theorem videoTrackEffect_mirrors_track
    (settings : CameraSettings.MediaTrackSettings)
    (p : CameraSettings.Panel) :
  let p' := CameraSettings.videoTrackEffect settings p in
  (CameraSettings.videoTrack (CameraSettings.component p) = None -> p' = p)
  /\ (forall track,
        CameraSettings.videoTrack (CameraSettings.component p) = Some track ->
        CameraSettings.videoTrackCapabilities p'
        = Some (CameraSettings.getCapabilities track)
        /\ CameraSettings.videoTrack (CameraSettings.component p')
           = Some track
        /\ CameraSettings.applied p' = CameraSettings.applied p
        /\ (forall x,
              CameraSettings.valueOf x
                (CameraSettings.state (CameraSettings.component p'))
              = default
                  (CameraSettings.valueOf x
                     (CameraSettings.state (CameraSettings.component p)))
                  (CameraSettings.numbers settings
                   !! CameraSettings.capabilityOf x))
        /\ (forall m,
              CameraSettings.autoOf m p'
              = default (CameraSettings.autoOf m p)
                  ((fun mode => bool_decide (mode = "continuous"%string))
                   <$> CameraSettings.modes settings
                       !! CameraSettings.modeKeyOf m))
        /\ CameraSettings.frameRate p'
           = default (CameraSettings.frameRate p)
               (CameraSettings.numbers settings !! "frameRate")
        /\ (forall x value,
              CameraSettings.isSliderDisabled x
                (CameraSettings.videoTrack (CameraSettings.component p'))
                (CameraSettings.videoTrackCapabilities p')
                (CameraSettings.autoexposure p')
                (CameraSettings.autofocus p')
                (CameraSettings.autoWhiteBalance p') = false ->
              CameraSettings.videoTrack
                (CameraSettings.handlerOf x value
                   (CameraSettings.component p'))
              = Some (CameraSettings.applyConstraints
                        (CameraSettings.capabilityOf x) value track))
        /\ CameraSettings.resolution p'
           = match CameraSettings.numbers settings !! "width",
                   CameraSettings.numbers settings !! "height" with
             | Some w, Some h =>
                 {| CameraSettings.width := w; CameraSettings.height := h |}
             | _, _ => CameraSettings.resolution p
             end
        /\ CameraSettings.trackTwoHands
             (CameraSettings.state (CameraSettings.component p'))
           = CameraSettings.trackTwoHands
               (CameraSettings.state (CameraSettings.component p))
        /\ CameraSettings.settingNumHands
             (CameraSettings.state (CameraSettings.component p'))
           = CameraSettings.settingNumHands
               (CameraSettings.state (CameraSettings.component p))).
Proof.
  intros p'. split.
  - intros Hnone. subst p'. unfold CameraSettings.videoTrackEffect.
    rewrite Hnone. reflexivity.
  - intros track Htrack.
    destruct (videoTrackEffect_fields settings p track Htrack)
      as (Hcaps & Hvt & Happlied & Hvalues & Hautos & Hrate & Hsize
          & Hhands & Hsetting).
    fold p' in Hcaps, Hvt, Happlied, Hvalues, Hautos, Hrate, Hsize, Hhands,
      Hsetting.
    conjuncts; try assumption.
    intros x value. rewrite Hvt, Hcaps. intros Henabled.
    apply enabled_slider_supported in Henabled.
    destruct (handlerOf_constrain x value (CameraSettings.component p'))
      as (f & -> & _).
    rewrite constrain_videoTrack. cbn. rewrite Hvt.
    case_decide; [reflexivity | contradiction].
Qed.

Lemma videoTrackEffect_mirrors_track_witness :
  let settings :=
    {| CameraSettings.numbers := {[ "brightness"%string := 128%Q ]};
       CameraSettings.modes := {[ "focusMode"%string := "manual"%string ]} |} in
  let p :=
    {| CameraSettings.component :=
         {| CameraSettings.state := Examples.panel;
            CameraSettings.videoTrack := Some Examples.webcam |};
       CameraSettings.videoTrackCapabilities := None;
       CameraSettings.autoexposure := true;
       CameraSettings.autofocus := true;
       CameraSettings.autoWhiteBalance := true;
       CameraSettings.resolution := Examples.hd;
       CameraSettings.frameRate := 30;
       CameraSettings.applied := [] |} in
  CameraSettings.videoTrackCapabilities
    (CameraSettings.videoTrackEffect settings p)
  = Some (CameraSettings.getCapabilities Examples.webcam).
Proof.
  cbv zeta.
  destruct (videoTrackEffect_mirrors_track
              {| CameraSettings.numbers := {[ "brightness"%string := 128%Q ]};
                 CameraSettings.modes :=
                   {[ "focusMode"%string := "manual"%string ]} |}
              {| CameraSettings.component :=
                   {| CameraSettings.state := Examples.panel;
                      CameraSettings.videoTrack := Some Examples.webcam |};
                 CameraSettings.videoTrackCapabilities := None;
                 CameraSettings.autoexposure := true;
                 CameraSettings.autofocus := true;
                 CameraSettings.autoWhiteBalance := true;
                 CameraSettings.resolution := Examples.hd;
                 CameraSettings.frameRate := 30;
                 CameraSettings.applied := [] |})
    as [_ Htrack].
  destruct (Htrack Examples.webcam eq_refl) as (Hcaps & _).
  exact Hcaps.
Defined.
